(** * LocalDevManager: the local-development synchronisation engine

    A shallow embedding of [class LocalDevManager] (the watch / upload /
    debounced-build loop) and the properties its specification states.

    The manager is a JavaScript object driven by the Node event loop.  Its
    methods are embedded as computations in a small state-and-abort monad
    over the manager's fields; one turn of the event loop (a watcher event,
    the debounce timer firing, the deploy poll completing, a call of
    [stop]) is one transition of [step].  Remote calls are answered by the
    environment: every turn carries the answers of the calls it issues. *)

From Stdlib Require Import Ascii String List ZArith Bool Lia DecimalString.
Import ListNotations.
Open Scope string_scope.
Open Scope Z_scope.

(** ** Constants and plain data *)

Definition BUILD_DEBOUNCE_TIME : Z := 2000.

Module WATCH_EVENTS.
Inductive t := add | change | unlink | unlinkDir.

Definition eqb (a b : t) : bool :=
  match a, b with
  | add, add | change, change | unlink, unlink | unlinkDir, unlinkDir => true
  | _, _ => false
  end.
End WATCH_EVENTS.

(** Modelled from the spec: the error sub-categories of
    [@hubspot/cli-lib/lib/constants] that the manager tests for (section 6:
    [PROJECT_LOCKED], [BUILD_NOT_IN_PROGRESS], [MISSING_PROJECT_PROVISION],
    or any other). *)
Module ERROR_TYPES.
Inductive t :=
| PROJECT_LOCKED
| BUILD_NOT_IN_PROGRESS
| MISSING_PROJECT_PROVISION
| OTHER_SUBCATEGORY.

Definition eqb (a b : t) : bool :=
  match a, b with
  | PROJECT_LOCKED, PROJECT_LOCKED
  | BUILD_NOT_IN_PROGRESS, BUILD_NOT_IN_PROGRESS
  | MISSING_PROJECT_PROVISION, MISSING_PROJECT_PROVISION
  | OTHER_SUBCATEGORY, OTHER_SUBCATEGORY => true
  | _, _ => false
  end.
End ERROR_TYPES.

(** Modelled from the spec: the process exit codes of [./enums/exitCodes]
    (section 7: fatal paths exit with a code distinct from success). *)
Module EXIT_CODES.
Inductive t := SUCCESS | ERROR.

Definition eqb (a b : t) : bool :=
  match a, b with
  | SUCCESS, SUCCESS | ERROR, ERROR => true
  | _, _ => false
  end.
End EXIT_CODES.

(** A thrown value: an API error with its sub-category, or anything else. *)
Inductive error :=
| ApiError (subCategory : ERROR_TYPES.t)
| OtherError (message : string).

(** Modelled from the spec: [isSpecifiedError(err, { subCategory })] of
    [@hubspot/cli-lib/errorHandlers/apiErrors] recognises the API error
    that carries the given sub-category. *)
Definition isSpecifiedError (err : error) (subCategory : ERROR_TYPES.t) : bool :=
  match err with
  | ApiError c => ERROR_TYPES.eqb c subCategory
  | OtherError _ => false
  end.

(** The settled state of a promise as one turn of the event loop sees it. *)
Inductive Promise :=
| Fulfilled
| Rejected (e : error)
| Unsettled.

(** What calling a client function does: it throws while it is being
    called, or it returns a promise. *)
Inductive CallResult :=
| Throws (e : error)
| Returns (p : Promise).

(** The answer to an awaited remote call. *)
Inductive Result (A : Type) :=
| Ok (a : A)
| Err (e : error).
Arguments Ok {A} a.
Arguments Err {A} e.

(** The answers of the file endpoints during one turn. *)
Record Net := {
  uploadResult : string -> string -> CallResult;
  deleteResult : string -> CallResult
}.

Record ProjectConfig := { name : string; srcDir : string }.

Record Options := {
  targetAccountId : nat;
  projectConfig : ProjectConfig;
  projectDir : string;
  preventUploads : bool;
  mockServers : bool
}.

(** [changeInfo] of [handleWatchEvent]. *)
Record ChangeInfo := {
  event : WATCH_EVENTS.t;
  filePath : string;
  remotePath : string
}.

(** [{ ...changeInfo, supported }], an entry of [this.standbyChanges]. *)
Record StandbyChange := {
  info : ChangeInfo;
  supported : bool
}.

(** The two closures the manager hands to the upload queue: the one of
    [handleWatchEvent] and the one of [flushStandbyChanges]. *)
Inductive Task :=
| SendTask (c : ChangeInfo)
| FlushTask (c : StandbyChange).

(** What the manager does to its collaborators, in order. *)
Inductive Effect :=
| ProvisionBuild (accountId : nat) (projectName : string)
| CancelStagedBuild (accountId : nat) (projectName : string)
| UploadFileToBuild (accountId : nat) (projectName filePath remotePath : string)
| DeleteFileFromBuild (accountId : nat) (projectName remotePath : string)
| QueueBuild (accountId : nat) (projectName : string)
| PollProjectBuildAndDeploy (accountId : nat) (projectName : string)
                            (buildId : option nat)
| QueueAdd (t : Task)
| SpinniesRemoveAll
| SpinniesAdd (key text : string)
| SpinniesUpdate (key text : string)
| SpinniesSucceed (key text : string)
| SpinniesFail (key text : string)
| LoggerDebug (e : error)
| LoggerDebugText (text : string)
| LoggerLog (text : string)
| LogApiErrorInstance (e : error) (accountId : nat) (projectName : string)
| WatcherClose
| ProcessExit (code : EXIT_CODES.t)
| UnhandledRejection (e : error)
| StartRejected (e : error).

(** Modelled from the spec: the Upload Queue ([p-queue], section 4.3).  A
    task added while the queue runs is dispatched at once; a task added
    while it is paused waits for [start].  Every turn runs to completion, so
    no task is in flight between two turns and the concurrency bound of 10
    never holds a task back. *)
Record PQueue := {
  isPaused : bool;
  waiting : list Task
}.

(** The fields of the manager, and below them the part of the Node runtime
    it lives in: the clock, the outstanding timers (handle, deadline), the
    next free handle, the timer callbacks suspended in
    [pollProjectBuildAndDeploy], the exit code once the process has exited,
    and the effects so far. *)
Record LocalDevManager := {
  options : Options;
  projectSourceDir : string;
  watching : bool;
  uploadQueue : PQueue;
  standbyChanges : list StandbyChange;
  debouncedBuild : option nat;
  currentStagedBuildId : option nat;
  now : Z;
  timers : list (nat * Z);
  nextTimer : nat;
  polls : nat;
  exited : option EXIT_CODES.t;
  trace : list Effect
}.

Definition set_watching (b : bool) (s : LocalDevManager) : LocalDevManager :=
  {| options := options s; projectSourceDir := projectSourceDir s;
     watching := b; uploadQueue := uploadQueue s;
     standbyChanges := standbyChanges s; debouncedBuild := debouncedBuild s;
     currentStagedBuildId := currentStagedBuildId s; now := now s;
     timers := timers s; nextTimer := nextTimer s; polls := polls s;
     exited := exited s; trace := trace s |}.

Definition set_uploadQueue (q : PQueue) (s : LocalDevManager) : LocalDevManager :=
  {| options := options s; projectSourceDir := projectSourceDir s;
     watching := watching s; uploadQueue := q;
     standbyChanges := standbyChanges s; debouncedBuild := debouncedBuild s;
     currentStagedBuildId := currentStagedBuildId s; now := now s;
     timers := timers s; nextTimer := nextTimer s; polls := polls s;
     exited := exited s; trace := trace s |}.

Definition set_standbyChanges (l : list StandbyChange) (s : LocalDevManager)
  : LocalDevManager :=
  {| options := options s; projectSourceDir := projectSourceDir s;
     watching := watching s; uploadQueue := uploadQueue s;
     standbyChanges := l; debouncedBuild := debouncedBuild s;
     currentStagedBuildId := currentStagedBuildId s; now := now s;
     timers := timers s; nextTimer := nextTimer s; polls := polls s;
     exited := exited s; trace := trace s |}.

Definition set_debouncedBuild (h : option nat) (s : LocalDevManager)
  : LocalDevManager :=
  {| options := options s; projectSourceDir := projectSourceDir s;
     watching := watching s; uploadQueue := uploadQueue s;
     standbyChanges := standbyChanges s; debouncedBuild := h;
     currentStagedBuildId := currentStagedBuildId s; now := now s;
     timers := timers s; nextTimer := nextTimer s; polls := polls s;
     exited := exited s; trace := trace s |}.

Definition set_currentStagedBuildId (b : option nat) (s : LocalDevManager)
  : LocalDevManager :=
  {| options := options s; projectSourceDir := projectSourceDir s;
     watching := watching s; uploadQueue := uploadQueue s;
     standbyChanges := standbyChanges s; debouncedBuild := debouncedBuild s;
     currentStagedBuildId := b; now := now s;
     timers := timers s; nextTimer := nextTimer s; polls := polls s;
     exited := exited s; trace := trace s |}.

Definition set_now (t : Z) (s : LocalDevManager) : LocalDevManager :=
  {| options := options s; projectSourceDir := projectSourceDir s;
     watching := watching s; uploadQueue := uploadQueue s;
     standbyChanges := standbyChanges s; debouncedBuild := debouncedBuild s;
     currentStagedBuildId := currentStagedBuildId s; now := t;
     timers := timers s; nextTimer := nextTimer s; polls := polls s;
     exited := exited s; trace := trace s |}.

Definition set_timers (l : list (nat * Z)) (s : LocalDevManager)
  : LocalDevManager :=
  {| options := options s; projectSourceDir := projectSourceDir s;
     watching := watching s; uploadQueue := uploadQueue s;
     standbyChanges := standbyChanges s; debouncedBuild := debouncedBuild s;
     currentStagedBuildId := currentStagedBuildId s; now := now s;
     timers := l; nextTimer := nextTimer s; polls := polls s;
     exited := exited s; trace := trace s |}.

Definition set_nextTimer (n : nat) (s : LocalDevManager) : LocalDevManager :=
  {| options := options s; projectSourceDir := projectSourceDir s;
     watching := watching s; uploadQueue := uploadQueue s;
     standbyChanges := standbyChanges s; debouncedBuild := debouncedBuild s;
     currentStagedBuildId := currentStagedBuildId s; now := now s;
     timers := timers s; nextTimer := n; polls := polls s;
     exited := exited s; trace := trace s |}.

Definition set_polls (n : nat) (s : LocalDevManager) : LocalDevManager :=
  {| options := options s; projectSourceDir := projectSourceDir s;
     watching := watching s; uploadQueue := uploadQueue s;
     standbyChanges := standbyChanges s; debouncedBuild := debouncedBuild s;
     currentStagedBuildId := currentStagedBuildId s; now := now s;
     timers := timers s; nextTimer := nextTimer s; polls := n;
     exited := exited s; trace := trace s |}.

Definition set_exited (c : option EXIT_CODES.t) (s : LocalDevManager)
  : LocalDevManager :=
  {| options := options s; projectSourceDir := projectSourceDir s;
     watching := watching s; uploadQueue := uploadQueue s;
     standbyChanges := standbyChanges s; debouncedBuild := debouncedBuild s;
     currentStagedBuildId := currentStagedBuildId s; now := now s;
     timers := timers s; nextTimer := nextTimer s; polls := polls s;
     exited := c; trace := trace s |}.

Definition set_trace (l : list Effect) (s : LocalDevManager) : LocalDevManager :=
  {| options := options s; projectSourceDir := projectSourceDir s;
     watching := watching s; uploadQueue := uploadQueue s;
     standbyChanges := standbyChanges s; debouncedBuild := debouncedBuild s;
     currentStagedBuildId := currentStagedBuildId s; now := now s;
     timers := timers s; nextTimer := nextTimer s; polls := polls s;
     exited := exited s; trace := l |}.

(** ** The monad of method bodies

    A method body either runs to its end with a value, or is cut short:
    [process.exit] was called, an exception is in flight, or the body is
    suspended on a promise that does not settle within the turn. *)

Inductive Outcome (A : Type) :=
| Done (a : A)
| Exited
| Thrown (e : error)
| Suspended.
Arguments Done {A} a.
Arguments Exited {A}.
Arguments Thrown {A} e.
Arguments Suspended {A}.

Definition M (A : Type) : Type := LocalDevManager -> Outcome A * LocalDevManager.

Definition ret {A} (a : A) : M A := fun s => (Done a, s).

Definition bind {A B} (m : M A) (k : A -> M B) : M B :=
  fun s =>
    match m s with
    | (Done a, s') => k a s'
    | (Exited, s') => (Exited, s')
    | (Thrown e, s') => (Thrown e, s')
    | (Suspended, s') => (Suspended, s')
    end.

Declare Scope ldm_scope.
Delimit Scope ldm_scope with ldm.
Notation "x <- m ;; k" := (bind m (fun x => k))
  (at level 61, m at next level, right associativity) : ldm_scope.
Notation "m ;; k" := (bind m (fun _ => k))
  (at level 61, right associativity) : ldm_scope.
Open Scope ldm_scope.

Definition gets {A} (f : LocalDevManager -> A) : M A := fun s => (Done (f s), s).

Definition modify (f : LocalDevManager -> LocalDevManager) : M unit :=
  fun s => (Done tt, f s).

Definition emit (e : Effect) : M unit :=
  modify (fun s => set_trace (trace s ++ [e]) s).

Definition throw {A} (e : error) : M A := fun s => (Thrown e, s).

Definition suspend {A} : M A := fun s => (Suspended, s).

(** [try { m } catch (err) { h err }]. *)
Definition try_catch {A} (m : M A) (h : error -> M A) : M A :=
  fun s =>
    match m s with
    | (Thrown e, s') => h e s'
    | r => r
    end.

(** [await p]. *)
Definition await (p : Promise) : M unit :=
  match p with
  | Fulfilled => ret tt
  | Rejected e => throw e
  | Unsettled => suspend
  end.

(** [await f(...)] for a remote call whose answer is [r]. *)
Definition await_result {A} (r : Result A) : M A :=
  match r with
  | Ok a => ret a
  | Err e => throw e
  end.

(** Calling an [async] function: the caller always gets a promise back.
    The body's returned promise is adopted; an exception in the body
    rejects it; a body suspended on an [await] leaves it unsettled. *)
Definition async (body : M Promise) : M Promise :=
  fun s =>
    match body s with
    | (Done p, s') => (Done p, s')
    | (Thrown e, s') => (Done (Rejected e), s')
    | (Suspended, s') => (Done Unsettled, s')
    | (Exited, s') => (Exited, s')
    end.

(** A promise nobody awaits and nobody attaches a handler to. *)
Definition drop (p : Promise) : M unit :=
  match p with
  | Rejected e => emit (UnhandledRejection e)
  | _ => ret tt
  end.

(** [process.exit(code)]: the process ends here. *)
Definition process_exit {A} (code : EXIT_CODES.t) : M A :=
  fun s => (Exited, set_exited (Some code)
                      (set_trace (trace s ++ [ProcessExit code]) s)).

Fixpoint mapM {A B} (f : A -> M B) (l : list A) : M (list B) :=
  match l with
  | [] => ret []
  | a :: l' => b <- f a ;; bs <- mapM f l' ;; ret (b :: bs)
  end.

(** ** Sample answers of the file endpoints *)

Definition okNet : Net :=
  {| uploadResult := fun _ _ => Returns Fulfilled;
     deleteResult := fun _ => Returns Fulfilled |}.

(** Both file endpoints return a promise that rejects with [e]. *)
Definition rejectingNet (e : error) : Net :=
  {| uploadResult := fun _ _ => Returns (Rejected e);
     deleteResult := fun _ => Returns (Rejected e) |}.

(** Both file endpoints throw [e] while being called. *)
Definition throwingNet (e : error) : Net :=
  {| uploadResult := fun _ _ => Throws e;
     deleteResult := fun _ => Throws e |}.

(** ** Reading the effects *)

Definition submissions (l : list Effect) : list Task :=
  flat_map (fun e => match e with QueueAdd t => [t] | _ => [] end) l.

Definition isFileCall (e : Effect) : bool :=
  match e with
  | UploadFileToBuild _ _ _ _ | DeleteFileFromBuild _ _ _ => true
  | _ => false
  end.

Definition fileCalls (l : list Effect) : list Effect := filter isFileCall l.

Definition isProvision (e : Effect) : bool :=
  match e with ProvisionBuild _ _ => true | _ => false end.

Definition isCancel (e : Effect) : bool :=
  match e with CancelStagedBuild _ _ => true | _ => false end.

Definition isQueueBuild (e : Effect) : bool :=
  match e with QueueBuild _ _ => true | _ => false end.

Definition isExit (e : Effect) : bool :=
  match e with ProcessExit _ => true | _ => false end.

Definition isLoggerDebug (e : Effect) : bool :=
  match e with LoggerDebug _ => true | _ => false end.

Definition count (f : Effect -> bool) (l : list Effect) : nat :=
  List.length (filter f l).

Arguments submissions : simpl never.
Arguments fileCalls : simpl never.
Arguments count : simpl never.

(** The one client call a change stands for: an upload for [add] and
    [change], a delete for [unlink] and [unlinkDir]. *)
Definition fileCallOf (a : nat) (p : string) (c : ChangeInfo) : Effect :=
  match event c with
  | WATCH_EVENTS.add | WATCH_EVENTS.change =>
      UploadFileToBuild a p (filePath c) (remotePath c)
  | WATCH_EVENTS.unlink | WATCH_EVENTS.unlinkDir =>
      DeleteFileFromBuild a p (remotePath c)
  end.

(** ** The imported collaborators

    What the manager imports and this development does not look into: the
    extension allow-list ([isAllowedExtension]), the ignore rules
    ([shouldIgnoreFile(file, flag)], the flag being [false] when the caller
    leaves it out) and the two functions of [path]. *)

Class Collaborators := {
  isAllowedExtension : string -> bool;
  shouldIgnoreFile : string -> bool -> bool;
  path_join : string -> string -> string;
  path_relative : string -> string -> string
}.

(** ** The methods of [LocalDevManager] *)

Section Manager.

Context `{C : Collaborators}.

Definition i18nKey : string := "cli.lib.LocalDevManager".

(** The language key stands for the text it selects. *)
Definition i18n (key : string) : string := i18nKey ++ "." ++ key.

Definition accountId (s : LocalDevManager) : nat := targetAccountId (options s).
Definition projectName (s : LocalDevManager) : string :=
  name (projectConfig (options s)).

(** JavaScript truthiness of [this.currentStagedBuildId]: [null] and [0]
    are falsy. *)
Definition truthy (b : option nat) : bool :=
  match b with
  | Some (S _) => true
  | _ => false
  end.

Definition newPQueue : PQueue := {| isPaused := false; waiting := [] |}.

(** The fields as the constructor assigns them. *)
Definition fields (o : Options) : LocalDevManager :=
  {| options := o;
     projectSourceDir := path_join (projectDir o) (srcDir (projectConfig o));
     watching := false;
     uploadQueue := newPQueue;
     standbyChanges := [];
     debouncedBuild := None;
     currentStagedBuildId := None;
     now := 0;
     timers := [];
     nextTimer := 0%nat;
     polls := 0%nat;
     exited := None;
     trace := [] |}.

(** [new LocalDevManager(options)]: the process exits when a required
    option is falsy, here an account id of [0] or an empty project
    directory (a missing [projectConfig] has no counterpart in
    [Options]). *)
Definition constructor (o : Options) : LocalDevManager :=
  if Nat.eqb (targetAccountId o) 0 || String.eqb (projectDir o) EmptyString
  then snd (@process_exit unit EXIT_CODES.ERROR (fields o))
  else fields o.

(** *** The Build Service Client *)

Definition provisionBuild (r : Result nat) : M nat :=
  a <- gets accountId ;; p <- gets projectName ;;
  emit (ProvisionBuild a p) ;; await_result r.

Definition cancelStagedBuild (r : Result unit) : M unit :=
  a <- gets accountId ;; p <- gets projectName ;;
  emit (CancelStagedBuild a p) ;; await_result r.

Definition queueBuild (r : Result unit) : M unit :=
  a <- gets accountId ;; p <- gets projectName ;;
  emit (QueueBuild a p) ;; await_result r.

(** The file endpoints are called without [await]: the call throws or
    hands back a promise. *)
Definition uploadFileToBuild (net : Net) (fp rp : string) : M Promise :=
  a <- gets accountId ;; p <- gets projectName ;;
  emit (UploadFileToBuild a p fp rp) ;;
  match uploadResult net fp rp with
  | Throws e => throw e
  | Returns pr => ret pr
  end.

Definition deleteFileFromBuild (net : Net) (rp : string) : M Promise :=
  a <- gets accountId ;; p <- gets projectName ;;
  emit (DeleteFileFromBuild a p rp) ;;
  match deleteResult net rp with
  | Throws e => throw e
  | Returns pr => ret pr
  end.

Definition logApiErrorInstance (err : error) : M unit :=
  a <- gets accountId ;; p <- gets projectName ;;
  emit (LogApiErrorInstance err a p).

(** *** Status line *)

Definition updateDevModeStatus (langKey : string) : M unit :=
  emit (SpinniesUpdate "devModeStatus" (i18n ("status." ++ langKey))).

(** *** [sendChanges] *)

Definition sendChanges (net : Net) (c : ChangeInfo) : M Promise :=
  async
    (emit (SpinniesAdd (filePath c) ("Uploading change for " ++ remotePath c)) ;;
     try_catch
       (match event c with
        | WATCH_EVENTS.add | WATCH_EVENTS.change =>
            uploadFileToBuild net (filePath c) (remotePath c)
        | WATCH_EVENTS.unlink | WATCH_EVENTS.unlinkDir =>
            deleteFileFromBuild net (remotePath c)
        end)
       (fun err => emit (LoggerDebug err) ;; ret Fulfilled)).

(** *** The debounce timer *)

Definition clearTimeout (h : nat) : M unit :=
  modify (fun s =>
    set_timers (filter (fun t => negb (Nat.eqb (fst t) h)) (timers s)) s).

Definition setTimeout (delay : Z) : M nat :=
  fun s =>
    (Done (nextTimer s),
     set_nextTimer (S (nextTimer s))
       (set_timers (timers s ++ [(nextTimer s, now s + delay)]) s)).

(** The arming half of [debounceQueueBuild]; the callback it installs is
    [debouncedBuildCallback] below. *)
Definition debounceQueueBuild : M unit :=
  updateDevModeStatus "dirty" ;;
  h <- gets debouncedBuild ;;
  match h with
  | Some t => clearTimeout t
  | None => ret tt
  end ;;
  t <- setTimeout BUILD_DEBOUNCE_TIME ;;
  modify (set_debouncedBuild (Some t)).

(** *** The upload queue *)

Definition queueIsPaused : M bool := gets (fun s => isPaused (uploadQueue s)).

(** The body of a queued closure, as an [async] function. *)
Definition runTask (net : Net) (t : Task) : M Promise :=
  match t with
  | SendTask c =>
      async (p <- sendChanges net c ;; await p ;; ret Fulfilled)
  | FlushTask c =>
      async
        (paused <- queueIsPaused ;;
         (if negb paused then debounceQueueBuild else ret tt) ;;
         p <- sendChanges net (info c) ;;
         drop p ;;
         ret Fulfilled)
  end.

Definition uploadQueue_add (net : Net) (t : Task) : M Promise :=
  emit (QueueAdd t) ;;
  paused <- queueIsPaused ;;
  if paused
  then
    modify (fun s =>
      set_uploadQueue {| isPaused := true;
                         waiting := waiting (uploadQueue s) ++ [t] |} s) ;;
    ret Unsettled
  else runTask net t.

(** [Promise.all]: rejected as soon as one is, pending while one is. *)
Fixpoint promise_all (ps : list Promise) : Promise :=
  match ps with
  | [] => Fulfilled
  | Rejected e :: _ => Rejected e
  | Fulfilled :: ps' => promise_all ps'
  | Unsettled :: ps' =>
      match promise_all ps' with
      | Rejected e => Rejected e
      | _ => Unsettled
      end
  end.

Definition uploadQueue_addAll (net : Net) (ts : list Task) : M Promise :=
  ps <- mapM (uploadQueue_add net) ts ;;
  ret (promise_all ps).

(** [uploadQueue.start()]: the waiting tasks are dispatched in order.
    The promises of these tasks belong to the callers of [add], whose
    continuations are not kept across turns; a rejected one is recorded
    as unhandled. *)
Definition uploadQueue_start (net : Net) : M unit :=
  q <- gets uploadQueue ;;
  modify (set_uploadQueue newPQueue) ;;
  mapM (fun t => p <- runTask net t ;; drop p) (waiting q) ;;
  ret tt.

Definition uploadQueue_pause : M unit :=
  modify (fun s =>
    set_uploadQueue {| isPaused := true;
                       waiting := waiting (uploadQueue s) |} s).

Definition uploadQueue_onIdle : M Promise :=
  q <- gets uploadQueue ;;
  match waiting q with
  | [] => ret Fulfilled
  | _ :: _ => ret Unsettled
  end.

Definition startUploadQueue (net : Net) : M unit :=
  uploadQueue_start net ;;
  emit SpinniesRemoveAll ;;
  emit (SpinniesAdd "devModeRunning" (i18n "running")) ;;
  prevent <- gets (fun s => preventUploads (options s)) ;;
  (if prevent
   then emit (SpinniesAdd "preventUploadsBanner" (i18n "preventUploadsBanner"))
   else ret tt) ;;
  emit (SpinniesAdd "devModeStatus" (i18n "status.clean")) ;;
  emit (SpinniesAdd "quitMessage" (i18n "quitHelper")) ;;
  emit (SpinniesAdd "lineSeparator"
          "--------------------------------------------------").

Definition pauseUploadQueue : M unit :=
  emit SpinniesRemoveAll ;;
  emit (SpinniesAdd "uploading" (i18n "upload.uploadingChanges")) ;;
  uploadQueue_pause ;;
  p <- uploadQueue_onIdle ;;
  await p.

(** *** The standby buffer *)

Definition hasAnyUnsupportedStandbyChanges : M bool :=
  gets (fun s => existsb (fun c => negb (supported c)) (standbyChanges s)).

Definition addChangeToStandbyQueue (c : StandbyChange) : M unit :=
  let fp := filePath (info c) in
  let isAddOrChange :=
    WATCH_EVENTS.eqb (event (info c)) WATCH_EVENTS.add
    || WATCH_EVENTS.eqb (event (info c)) WATCH_EVENTS.change in
  if isAddOrChange && negb (isAllowedExtension fp)
  then emit (LoggerDebugText ("Extension not allowed: " ++ fp))
  else if shouldIgnoreFile fp true
  then emit (LoggerDebugText ("File ignored: " ++ fp))
  else modify (fun s => set_standbyChanges (standbyChanges s ++ [c]) s).

Definition flushStandbyChanges (net : Net) : M Promise :=
  async
    (sc <- gets standbyChanges ;;
     match sc with
     | [] => ret Fulfilled
     | _ :: _ =>
         p <- uploadQueue_addAll net (map FlushTask sc) ;;
         await p ;;
         modify (set_standbyChanges []) ;;
         ret Fulfilled
     end).

(** *** Provisioning *)

Definition createNewStagingBuild (prov : Result nat) (cancel : Result unit)
  : M unit :=
  try_catch
    (buildId <- provisionBuild prov ;;
     modify (set_currentStagedBuildId (Some buildId)))
    (fun err =>
       emit (LoggerDebug err) ;;
       (if isSpecifiedError err ERROR_TYPES.PROJECT_LOCKED
        then
          cancelStagedBuild cancel ;;
          emit (LoggerLog (i18n "previousStagingBuildCancelled"))
        else ret tt) ;;
       process_exit EXIT_CODES.ERROR).

(** *** Local servers (stubs in the source) *)

Definition startServers : M bool := ret true.
Definition notifyServers (c : ChangeInfo) : M bool := ret false.
Definition cleanupServers : M unit := ret tt.

(** *** [handleWatchEvent] *)

Definition handleWatchEvent (net : Net) (fp : string) (ev : WATCH_EVENTS.t)
  : M Promise :=
  async
    (src <- gets projectSourceDir ;;
     let changeInfo :=
       {| event := ev; filePath := fp; remotePath := path_relative src fp |} in
     isSupportedChange <- notifyServers changeInfo ;;
     if isSupportedChange
     then
       updateDevModeStatus "supportedChange" ;;
       addChangeToStandbyQueue {| info := changeInfo; supported := true |} ;;
       ret Fulfilled
     else
       prevent <- gets (fun s => preventUploads (options s)) ;;
       if prevent
       then
         updateDevModeStatus "uploadPrevented" ;;
         emit (SpinniesAdd fp
                 ("[WARNING] Upload prevented for " ++ remotePath changeInfo)) ;;
         ret Fulfilled
       else
         paused <- queueIsPaused ;;
         if paused
         then
           sc <- gets standbyChanges ;;
           (if negb (existsb (fun c => String.eqb (filePath (info c)) fp) sc)
            then addChangeToStandbyQueue
                   {| info := changeInfo; supported := false |}
            else ret tt) ;;
           ret Fulfilled
         else
           p <- flushStandbyChanges net ;;
           await p ;;
           paused' <- queueIsPaused ;;
           (if negb paused' then debounceQueueBuild else ret tt) ;;
           uploadQueue_add net (SendTask changeInfo)).

(** *** [stop] *)

Definition stopWatching : M unit :=
  emit WatcherClose ;; modify (set_watching false).

Definition stop (cancel : Result unit) : M Promise :=
  async
    (emit SpinniesRemoveAll ;;
     emit (SpinniesAdd "cleanupMessage" (i18n "exitingStart")) ;;
     stopWatching ;;
     cleanupServers ;;
     buildId <- gets currentStagedBuildId ;;
     exitCode <-
       (if truthy buildId
        then
          try_catch
            (cancelStagedBuild cancel ;; ret EXIT_CODES.SUCCESS)
            (fun err =>
               if negb (isSpecifiedError err ERROR_TYPES.BUILD_NOT_IN_PROGRESS)
               then logApiErrorInstance err ;; ret EXIT_CODES.ERROR
               else ret EXIT_CODES.SUCCESS)
        else ret EXIT_CODES.SUCCESS) ;;
     (if EXIT_CODES.eqb exitCode EXIT_CODES.SUCCESS
      then emit (SpinniesSucceed "cleanupMessage" (i18n "exitingSucceed"))
      else emit (SpinniesFail "cleanupMessage" (i18n "exitingFail"))) ;;
     process_exit exitCode).

(** *** The callback installed by [debounceQueueBuild]

    The callback runs up to [await pollProjectBuildAndDeploy(...)], where
    it stays suspended while the remote build and deploy run
    ([debouncedBuildCallback]); the turn that completes the poll runs the
    rest ([debouncedBuildResume]). *)

Definition debouncedBuildCallback (queued cancel : Result unit) : M Promise :=
  async
    (pauseUploadQueue ;;
     proceed <-
       try_catch
         (queueBuild queued ;; ret true)
         (fun err =>
            emit (LoggerDebug err) ;;
            (if isSpecifiedError err ERROR_TYPES.MISSING_PROJECT_PROVISION
             then
               emit (LoggerLog (i18n "logs.cancelledFromUI")) ;;
               p <- stop cancel ;;
               drop p
             else logApiErrorInstance err) ;;
            ret false) ;;
     if proceed
     then
       a <- gets accountId ;; n <- gets projectName ;;
       b <- gets currentStagedBuildId ;;
       emit (PollProjectBuildAndDeploy a n b) ;;
       modify (fun s => set_polls (S (polls s)) s) ;;
       suspend
     else ret Fulfilled).

Definition debouncedBuildResume (poll : Result unit) (prov : Result nat)
    (cancel : Result unit) (net : Net) : M Promise :=
  async
    (await_result poll ;;
     createNewStagingBuild prov cancel ;;
     startUploadQueue net ;;
     unsupported <- hasAnyUnsupportedStandbyChanges ;;
     (if unsupported
      then p <- flushStandbyChanges net ;; drop p
      else updateDevModeStatus "clean") ;;
     ret Fulfilled).

(** *** [start] *)

Definition startWatching (prov : Result nat) (cancel : Result unit) : M unit :=
  prevent <- gets (fun s => preventUploads (options s)) ;;
  (if negb prevent then createNewStagingBuild prov cancel else ret tt) ;;
  modify (set_watching true).

Definition start (prov : Result nat) (cancel : Result unit) (net : Net)
  : M Promise :=
  async
    (modify (set_uploadQueue newPQueue) ;;
     startUploadQueue net ;;
     startServers ;;
     startWatching prov cancel ;;
     ret Fulfilled).

(** ** The event loop *)

(** One turn of the event loop.  [Tick]: time passes and nothing runs.
    [Watch]: the watcher reports a change.  [Fire]: the debounce timer
    expires.  [PollDone]: the poll a callback is suspended on settles.
    [Stop]: somebody calls [stop()].

    A handler runs to its end within its turn: the remote calls it awaits
    are answered at once, by the answers the turn carries.  The one
    [await] that spans turns is the poll of the timer callback, during
    which the queue is paused and changes keep arriving. *)
Inductive Turn :=
| Tick (dt : Z)
| Watch (ev : WATCH_EVENTS.t) (fp : string) (net : Net)
| Fire (queued cancel : Result unit)
| PollDone (poll : Result unit) (prov : Result nat) (cancel : Result unit)
           (net : Net)
| Stop (cancel : Result unit).

(** Runs a handler whose promise nobody holds on to. *)
Definition turn (m : M Promise) (s : LocalDevManager) : LocalDevManager :=
  snd ((p <- m ;; drop p) s).

Definition due (s : LocalDevManager) : option (nat * Z) :=
  find (fun t => snd t <=? now s) (timers s).

(** [None]: the turn cannot happen in this state.  Time does not pass
    beyond the deadline of an outstanding timer without the timer
    firing; the watcher reports only paths its [ignored] filter lets
    through, and nothing before its handlers are registered or after it
    is closed.  Once [process.exit] has run the process is gone: no
    handler runs any more. *)
Definition step (t : Turn) (s : LocalDevManager) : option LocalDevManager :=
  match exited s with
  | Some _ => Some s
  | None =>
      match t with
      | Tick dt =>
          if (0 <=? dt) && forallb (fun t => now s + dt <=? snd t) (timers s)
          then Some (set_now (now s + dt) s)
          else None
      | Watch ev fp net =>
          if watching s && negb (shouldIgnoreFile fp false)
          then Some (turn (handleWatchEvent net fp ev) s)
          else None
      | Fire queued cancel =>
          match due s with
          | Some (h, _) =>
              Some (turn (debouncedBuildCallback queued cancel)
                      (snd (clearTimeout h s)))
          | None => None
          end
      | PollDone poll prov cancel net =>
          match polls s with
          | S n =>
              Some (turn (debouncedBuildResume poll prov cancel net)
                      (set_polls n s))
          | O => None
          end
      | Stop cancel => Some (turn (stop cancel) s)
      end
  end.

Fixpoint run (ts : list Turn) (s : LocalDevManager) : option LocalDevManager :=
  match ts with
  | [] => Some s
  | t :: ts' =>
      match step t s with
      | Some s' => run ts' s'
      | None => None
      end
  end.

(** [new LocalDevManager(options)] followed by [start()]. *)
Definition boot (o : Options) (prov : Result nat) (cancel : Result unit)
    (net : Net) : LocalDevManager :=
  let this := constructor o in
  match exited this with
  | Some _ => this
  | None =>
      snd ((p <- start prov cancel net ;;
            match p with
            | Rejected e => emit (StartRejected e)
            | _ => ret tt
            end) this)
  end.

Definition reachable (s : LocalDevManager) : Prop :=
  exists o prov cancel net ts, run ts (boot o prov cancel net) = Some s.

(** ** Specification vocabulary *)

(** The Ignore/Filter Policy: an added or modified path needs an allowed
    extension and must not be ignored; a deleted path must not be
    ignored. *)
Definition isEligible (c : ChangeInfo) : bool :=
  match event c with
  | WATCH_EVENTS.add | WATCH_EVENTS.change =>
      isAllowedExtension (filePath c) && negb (shouldIgnoreFile (filePath c) true)
  | WATCH_EVENTS.unlink | WATCH_EVENTS.unlinkDir =>
      negb (shouldIgnoreFile (filePath c) true)
  end.

(** At most one timer is outstanding; it is the one [this.debouncedBuild]
    holds, and it expires within the debounce window. *)
Definition timer_ok (s : LocalDevManager) : Prop :=
  match timers s with
  | [] => True
  | [(h, d)] =>
      debouncedBuild s = Some h /\ now s <= d <= now s + BUILD_DEBOUNCE_TIME
  | _ :: _ :: _ => False
  end.

(** What holds between any two turns. *)
Definition Inv (s : LocalDevManager) : Prop :=
  timer_ok s
  /\ waiting (uploadQueue s) = []
  /\ Forall (fun c => supported c = false) (standbyChanges s)
  /\ (isPaused (uploadQueue s) = false -> standbyChanges s = []).

(** The effects of a manager that only watches and reports. *)
Definition isStatusOnly (e : Effect) : bool :=
  match e with
  | SpinniesRemoveAll | SpinniesAdd _ _ | SpinniesUpdate _ _
  | SpinniesSucceed _ _ | SpinniesFail _ _ | WatcherClose | ProcessExit _ =>
      true
  | _ => false
  end.

Definition Prevented (s : LocalDevManager) : Prop :=
  preventUploads (options s) = true
  /\ timers s = []
  /\ polls s = 0%nat
  /\ currentStagedBuildId s = None
  /\ standbyChanges s = []
  /\ forallb isStatusOnly (trace s) = true.

(** What a method leaves alone when all it does is arm the timer and
    talk to its collaborators. *)
Definition frame (s s' : LocalDevManager) : Prop :=
  options s' = options s
  /\ projectSourceDir s' = projectSourceDir s
  /\ watching s' = watching s
  /\ uploadQueue s' = uploadQueue s
  /\ standbyChanges s' = standbyChanges s
  /\ currentStagedBuildId s' = currentStagedBuildId s
  /\ now s' = now s
  /\ polls s' = polls s
  /\ exited s' = exited s.


End Manager.

(** ** Sample collaborators

    Concrete stand-ins for the imported collaborators and a sample
    configuration, used to run the manager on concrete inputs. *)

Fixpoint endsWith (suffix s : string) : bool :=
  if String.eqb s suffix then true
  else match s with
       | EmptyString => false
       | String _ s' => endsWith suffix s'
       end.

Definition sampleAllowedExtension (p : string) : bool :=
  endsWith ".html" p || endsWith ".css" p || endsWith ".js" p.

Definition sampleIgnoreFile (p : string) (_ : bool) : bool :=
  endsWith ".DS_Store" p.

Definition sampleJoin (a b : string) : string := a ++ "/" ++ b.

Fixpoint dropPrefix (n : nat) (s : string) : string :=
  match n, s with
  | O, _ => s
  | S n', String _ s' => dropPrefix n' s'
  | S _, EmptyString => EmptyString
  end.

Definition sampleRelative (from to : string) : string :=
  dropPrefix (S (String.length from)) to.

Definition sampleCollaborators : Collaborators :=
  {| isAllowedExtension := sampleAllowedExtension;
     shouldIgnoreFile := sampleIgnoreFile;
     path_join := sampleJoin;
     path_relative := sampleRelative |}.

Definition sampleOptions (prevent : bool) : Options :=
  {| targetAccountId := 42%nat;
     projectConfig := {| name := "proj"; srcDir := "src" |};
     projectDir := "/p";
     preventUploads := prevent;
     mockServers := false |}.

(** The manager of the sample project after [start()], its first staged
    build being number 7. *)
Definition sampleBoot (prevent : bool) : LocalDevManager :=
  @boot sampleCollaborators (sampleOptions prevent) (Ok 7%nat) (Ok tt) okNet.

Definition aHtml : string := "/p/src/a.html".
Definition bCss : string := "/p/src/b.css".
Definition aExe : string := "/p/src/a.exe".

(** One change, the debounce window, the timer firing with [queueBuild]
    succeeding: the queue is paused and the callback waits for the poll. *)
Definition toDeploying : list Turn :=
  [Watch WATCH_EVENTS.add aHtml okNet;
   Tick BUILD_DEBOUNCE_TIME;
   Fire (Ok tt) (Ok tt)].

(** The sample project during a deploy, one modification buffered. *)
Definition sampleBuffering : LocalDevManager :=
  match @run sampleCollaborators
          (toDeploying ++ [Watch WATCH_EVENTS.change aHtml okNet])
          (sampleBoot false)
  with
  | Some s => s
  | None => sampleBoot false
  end.



(** ** Further vocabulary for whole runs *)

Definition isPoll (e : Effect) : bool :=
  match e with PollProjectBuildAndDeploy _ _ _ => true | _ => false end.

(** The effects of handling a change: status lines, queue submissions,
    file calls and their diagnostics. *)
Definition isChangeEffect (e : Effect) : bool :=
  match e with
  | QueueAdd _ | SpinniesAdd _ _ | SpinniesUpdate _ _
  | UploadFileToBuild _ _ _ _ | DeleteFileFromBuild _ _ _
  | LoggerDebug _ | LoggerDebugText _ | UnhandledRejection _ => true
  | _ => false
  end.

Definition bufferedPaths (s : LocalDevManager) : list string :=
  map (fun c => filePath (info c)) (standbyChanges s).

(** The standby buffer holds at most one entry per path, and only
    eligible changes. *)
Definition Uniq `{C : Collaborators} (s : LocalDevManager) : Prop :=
  NoDup (bufferedPaths s)
  /\ Forall (fun c => isEligible (info c) = true) (standbyChanges s).

(** At most one timer callback waits for a poll; while one does the queue
    is paused; and while the queue is paused no timer is outstanding. *)
Definition DeployInv (s : LocalDevManager) : Prop :=
  (polls s <= 1)%nat
  /\ (polls s = 1%nat -> isPaused (uploadQueue s) = true)
  /\ (isPaused (uploadQueue s) = true -> timers s = []).


(** A manager that watches with uploads allowed, or that has issued a
    file call, has a staged build, and a staged build was provisioned. *)
Definition Staged (s : LocalDevManager) : Prop :=
  (preventUploads (options s) = false -> watching s = true ->
   currentStagedBuildId s <> None)
  /\ (fileCalls (trace s) <> [] -> currentStagedBuildId s <> None)
  /\ (currentStagedBuildId s <> None ->
      (1 <= count isProvision (trace s))%nat).

(** [process.exit] is called at most once, and it is the last effect. *)
Definition ExitOnce (s : LocalDevManager) : Prop :=
  match exited s with
  | None => count isExit (trace s) = 0%nat
  | Some code =>
      count isExit (trace s) = 1%nat
      /\ last (trace s) SpinniesRemoveAll = ProcessExit code
  end.

(** Builds are provisioned at the start and after completed polls only,
    and a poll follows a [queueBuild]. *)
Definition Disciplined (s : LocalDevManager) : Prop :=
  (count isProvision (trace s) + polls s <= 1 + count isPoll (trace s))%nat
  /\ (count isPoll (trace s) <= count isQueueBuild (trace s))%nat.

(** A handler either leaves the process alive and does not call
    [process.exit], or ends it with [process.exit] as its last effect. *)
Definition exits (s s' : LocalDevManager) (delta : list Effect) : Prop :=
  (exited s' = exited s /\ count isExit delta = 0%nat)
  \/ (exists code,
        exited s' = Some code
        /\ count isExit delta = 1%nat
        /\ last delta SpinniesRemoveAll = ProcessExit code).

(** Everything that holds between two turns. *)
Definition Good `{C : Collaborators} (s : LocalDevManager) : Prop :=
  Inv s /\ Uniq s /\ DeployInv s /\ Staged s /\ ExitOnce s /\ Disciplined s.


(** The exit code of [stop()], read off the staged build and the answer
    of the cancel. *)
Definition stopCode (b : option nat) (cancel : Result unit) : EXIT_CODES.t :=
  if truthy b
  then match cancel with
       | Ok _ => EXIT_CODES.SUCCESS
       | Err e =>
           if isSpecifiedError e ERROR_TYPES.BUILD_NOT_IN_PROGRESS
           then EXIT_CODES.SUCCESS
           else EXIT_CODES.ERROR
       end
  else EXIT_CODES.SUCCESS.

(** * The other commands of the source files *)

(** ** [secrets add]: the handler of [addSecret.js] *)

Module AddSecret.

Inductive Effect :=
| LoadAndValidateOptions
| TrackCommandUsage (command : string) (accountId : nat)
| SecretValuePrompt
| AddSecret (accountId : nat) (secretName secretValue : string)
| LoggerLog (text : string)
| LoggerError (text : string)
| LogServerlessFunctionApiErrorInstance
    (accountId : nat) (e : error) (request : string) (contextAccountId : nat).

(** A command body: the effects so far go in, the outcome and the effects
    come out.  Only [Done] and [Thrown] occur. *)
Definition Cmd (A : Type) : Type := list Effect -> Outcome A * list Effect.

Definition ret {A} (a : A) : Cmd A := fun t => (Done a, t).

Definition bind {A B} (m : Cmd A) (k : A -> Cmd B) : Cmd B :=
  fun t =>
    match m t with
    | (Done a, t') => k a t'
    | (Exited, t') => (Exited, t')
    | (Thrown e, t') => (Thrown e, t')
    | (Suspended, t') => (Suspended, t')
    end.

Declare Scope cmd_scope.
Notation "x <- m ;; k" := (bind m (fun x => k))
  (at level 61, m at next level, right associativity) : cmd_scope.
Notation "m ;; k" := (bind m (fun _ => k))
  (at level 61, right associativity) : cmd_scope.
Local Open Scope cmd_scope.

Definition emit (e : Effect) : Cmd unit := fun t => (Done tt, (t ++ [e])%list).

(** [await f(...)], the call being the effect [e] and its answer [r]. *)
Definition call {A} (e : Effect) (r : Result A) : Cmd A :=
  emit e ;;
  match r with
  | Ok a => ret a
  | Err err => fun t => (Thrown err, t)
  end.

Definition try_catch {A} (m : Cmd A) (h : error -> Cmd A) : Cmd A :=
  fun t =>
    match m t with
    | (Thrown e, t') => h e t'
    | r => r
    end.

(** The promise of an [async] function and the effects of its body. *)
Definition async (body : Cmd unit) : Promise * list Effect :=
  match body [] with
  | (Done _, t) => (Fulfilled, t)
  | (Thrown e, t) => (Rejected e, t)
  | (Exited, t) => (Unsettled, t)
  | (Suspended, t) => (Unsettled, t)
  end.

(** The double quote character. *)
Definition quote : string := String (Ascii.ascii_of_nat 34) EmptyString.

(** A number inside a template literal. *)
Definition showNumber (n : nat) : string :=
  NilZero.string_of_uint (Nat.to_uint n).

Definition addedMessage (secretName : string) (accountId : nat) : string :=
  "The secret " ++ quote ++ secretName ++ quote
    ++ " was added to the HubSpot account: " ++ showNumber accountId.

Definition notAddedMessage (secretName : string) : string :=
  "The secret " ++ quote ++ secretName ++ quote ++ " was not added".

(** The answers of what the handler awaits: option validation, the
    prompt, the secrets API and the error reporter. *)
Record Answers := {
  validated : Result unit;
  prompted : Result string;
  added : Result unit;
  reported : Result unit
}.

(** [exports.handler], for the secret name of the options and the account
    id [getAccountId(options)] yields. *)
Definition handler (secretName : string) (accountId : nat) (a : Answers)
  : Promise * list Effect :=
  async
    (call LoadAndValidateOptions (validated a) ;;
     emit (TrackCommandUsage "secrets-add" accountId) ;;
     try_catch
       (secretValue <- call SecretValuePrompt (prompted a) ;;
        call (AddSecret accountId secretName secretValue) (added a) ;;
        emit (LoggerLog (addedMessage secretName accountId)))
       (fun e =>
          emit (LoggerError (notAddedMessage secretName)) ;;
          call (LogServerlessFunctionApiErrorInstance accountId e
                  "add secret" accountId)
               (reported a))).

Definition isAddSecret (e : Effect) : bool :=
  match e with AddSecret _ _ _ => true | _ => false end.

Definition isLog (e : Effect) : bool :=
  match e with LoggerLog _ => true | _ => false end.

Definition isError (e : Effect) : bool :=
  match e with LoggerError _ => true | _ => false end.

Definition isReport (e : Effect) : bool :=
  match e with
  | LogServerlessFunctionApiErrorInstance _ _ _ _ => true
  | _ => false
  end.

Definition isTrack (e : Effect) : bool :=
  match e with TrackCommandUsage _ _ => true | _ => false end.

Definition isPrompt (e : Effect) : bool :=
  match e with SecretValuePrompt => true | _ => false end.

End AddSecret.

(** ** [create module]: [createModule] and its exports *)

Module CreateModule.

(** What [createModulePrompt] yields. *)
Record ModuleDefinition := {
  contentTypes : list string;
  moduleLabel : string;
  global : bool
}.

(** The object [writeModuleMeta] writes. *)
Record MetaData := {
  label : string;
  css_assets : list string;
  external_js : list string;
  meta_global : bool;
  help_text : string;
  host_template_types : list string;
  js_assets : list string;
  other_assets : list string;
  smart_type : string;
  tags : list string;
  is_available_for_new_content : bool
}.

Inductive Effect :=
| LoggerError (text : string)
| LoggerLog (text : string)
| Mkdirp (dir : string)
| WriteJSONSync (dest : string) (data : MetaData) (spaces : nat)
| Copy (src dest : string).

(** The surroundings of [createModule]: [path.basename], [path.join],
    the resolved path of the bundled [Sample.module] directory, the names
    of the files in it, and what [fs.existsSync] answers. *)
Class Env := {
  basename : string -> string;
  join : string -> string -> string;
  assetPath : string;
  assetEntries : list string;
  existsSync : string -> bool
}.

Section WithEnv.

Context `{E : Env}.

Definition metaData (d : ModuleDefinition) : MetaData :=
  {| label := moduleLabel d;
     css_assets := [];
     external_js := [];
     meta_global := global d;
     help_text := EmptyString;
     host_template_types := contentTypes d;
     js_assets := [];
     other_assets := [];
     smart_type := "NOT_SMART";
     tags := [];
     is_available_for_new_content := false |}.

Definition writeModuleMeta (d : ModuleDefinition) (dest : string)
  : list Effect :=
  [WriteJSONSync dest (metaData d) 2].

(** [array.includes(x)]. *)
Definition includes (x : string) (l : list string) : bool :=
  existsb (String.eqb x) l.

(** [moduleFileFilter(src, dest)]: its answer and what it does on the
    way. *)
Definition moduleFileFilter (d : ModuleDefinition) (src dest : string)
  : bool * list Effect :=
  let emailEnabled := includes "EMAIL" (contentTypes d) in
  let b := basename src in
  if String.eqb b "meta.json"
  then (false, writeModuleMeta d dest)
  else if String.eqb b "module.js" || String.eqb b "module.css"
  then (if emailEnabled then false else true, [])
  else (true, []).

(** [fs.copySync(src, dest, { filter })] is fs-extra's and not part of
    the sources; it is modelled as its documentation describes it on a
    directory of files: the filter is asked about the directory, and, when
    it lets the directory through, about each entry in turn; what it lets
    through is copied. *)
Fixpoint copyEntries (filter : string -> string -> bool * list Effect)
    (src dest : string) (entries : list string) : list Effect :=
  match entries with
  | [] => []
  | n :: rest =>
      let r := filter (join src n) (join dest n) in
      (snd r
         ++ (if fst r then [Copy (join src n) (join dest n)] else [])
         ++ copyEntries filter src dest rest)%list
  end.

Definition copySync (filter : string -> string -> bool * list Effect)
    (src dest : string) : list Effect :=
  let r := filter src dest in
  (snd r ++ if fst r then copyEntries filter src dest assetEntries else [])%list.

(** [name.endsWith('.module') ? name : `${name}.module`]. *)
Definition folderName (name : string) : string :=
  if endsWith ".module" name then name else name ++ ".module".

Definition createModule (d : ModuleDefinition) (name dest : string)
  : list Effect :=
  let destPath := join dest (folderName name) in
  if existsSync destPath
  then [LoggerError ("The " ++ destPath ++ " path already exists")]
  else
    ([LoggerLog ("Creating " ++ destPath);
      Mkdirp destPath;
      LoggerLog ("Creating module at " ++ destPath)]
       ++ copySync (moduleFileFilter d) assetPath destPath)%list.

(** [validate({ name })], a missing name being [None]. *)
Definition validate (name : option string) : bool * list Effect :=
  match name with
  | None | Some EmptyString =>
      (false,
       [LoggerError
          "The 'name' argument is required when creating a Custom Module."])
  | Some _ => (true, [])
  end.

Definition isCopy (e : Effect) : bool :=
  match e with Copy _ _ => true | _ => false end.

Definition isWrite (e : Effect) : bool :=
  match e with WriteJSONSync _ _ _ => true | _ => false end.

Definition isMkdirp (e : Effect) : bool :=
  match e with Mkdirp _ => true | _ => false end.

End WithEnv.

End CreateModule.

(** ** [urls.js] *)

Module Urls.

Section Environments.

(** [ENVIRONMENTS.QA] of [./constants], which is not part of the
    sources: any string. *)
Variable QA : string.

(** The environment argument is a string or missing. *)
Definition getEnvUrlString (env : option string) : string :=
  match env with
  | Some e => if String.eqb e QA then QA else EmptyString
  | None => EmptyString
  end.

Definition getHubSpotWebsiteOrigin (env : option string) : string :=
  "https://app.hubspot" ++ getEnvUrlString env ++ ".com".

Definition getHubSpotApiOrigin (env : option string) (useLocalHost : bool)
  : string :=
  "https://" ++ (if useLocalHost then "local" else "api") ++ ".hubapi"
    ++ getEnvUrlString env ++ ".com".

End Environments.

End Urls.

(** ** Samples for the other commands and further sample states *)



Fixpoint hasSlash (s : string) : bool :=
  match s with
  | EmptyString => false
  | String c s' => Ascii.eqb c "/"%char || hasSlash s'
  end.

(** The last segment of a path. *)
Fixpoint sampleBasename (s : string) : string :=
  match s with
  | EmptyString => EmptyString
  | String _ s' => if hasSlash s then sampleBasename s' else s
  end.

(** A [Sample.module] of five files, and a disk on which only
    [/out/Old.module] exists. *)
Definition sampleEnv : CreateModule.Env :=
  {| CreateModule.basename := sampleBasename;
     CreateModule.join := sampleJoin;
     CreateModule.assetPath := "/cli/defaults/Sample.module";
     CreateModule.assetEntries :=
       ["fields.json"; "meta.json"; "module.css"; "module.html"; "module.js"];
     CreateModule.existsSync := fun p => String.eqb p "/out/Old.module" |}.

Definition emailModule : CreateModule.ModuleDefinition :=
  {| CreateModule.contentTypes := ["EMAIL"; "PAGE"];
     CreateModule.moduleLabel := "Banner";
     CreateModule.global := false |}.

Definition sampleAnswers (prompted : Result string) (added : Result unit)
  : AddSecret.Answers :=
  {| AddSecret.validated := Ok tt;
     AddSecret.prompted := prompted;
     AddSecret.added := added;
     AddSecret.reported := Ok tt |}.

(** * Properties *)

Section Properties.

Context `{C : Collaborators}.

(** ** Properties of single methods *)

Create HintDb ldm.

#[local] Hint Unfold turn stop stopWatching cleanupServers cancelStagedBuild
  provisionBuild queueBuild logApiErrorInstance createNewStagingBuild
  sendChanges uploadFileToBuild deleteFileFromBuild runTask uploadQueue_add
  queueIsPaused debounceQueueBuild updateDevModeStatus clearTimeout
  setTimeout notifyServers startServers process_exit async try_catch await
  await_result drop emit modify gets bind ret throw suspend accountId
  projectName : ldm.

#[local] Arguments String.append : simpl never.
#[local] Arguments debounceQueueBuild : simpl never.
#[local] Arguments sendChanges : simpl never.
#[local] Arguments flushStandbyChanges : simpl never.
#[local] Arguments uploadQueue_add : simpl never.

(** The handlers, unfolded down to the methods that have a lemma of
    their own. *)
Create HintDb ldm_handlers.

#[local] Hint Unfold turn handleWatchEvent stop stopWatching cleanupServers
  cancelStagedBuild provisionBuild queueBuild logApiErrorInstance
  createNewStagingBuild queueIsPaused updateDevModeStatus clearTimeout
  notifyServers startServers process_exit startUploadQueue uploadQueue_start
  uploadQueue_pause uploadQueue_onIdle pauseUploadQueue
  hasAnyUnsupportedStandbyChanges addChangeToStandbyQueue
  debouncedBuildCallback debouncedBuildResume startWatching start boot
  constructor fields newPQueue async try_catch await await_result drop emit modify
  gets bind ret throw suspend accountId projectName : ldm_handlers.

Ltac run_handler := repeat autounfold with ldm_handlers; cbn.

Ltac run_method := repeat autounfold with ldm; cbn.

Lemma count_app f l1 l2 : count f (l1 ++ l2) = (count f l1 + count f l2)%nat.
Proof. unfold count. now rewrite filter_app, length_app. Qed.

Lemma submissions_app l1 l2 :
  submissions (l1 ++ l2) = (submissions l1 ++ submissions l2)%list.
Proof. unfold submissions. apply flat_map_app. Qed.

Lemma fileCalls_app l1 l2 : fileCalls (l1 ++ l2) = (fileCalls l1 ++ fileCalls l2)%list.
Proof. unfold fileCalls. apply filter_app. Qed.

Ltac count_solve :=
  rewrite ?count_app; unfold count; cbn; lia.

Ltac subm_solve :=
  rewrite ?submissions_app; unfold submissions; cbn; rewrite ?app_nil_r;
  reflexivity.


(** A failure thrown while the endpoint is being called is caught and
    logged by [sendChanges]: its promise is fulfilled. *)
Lemma sendChanges_throw_is_caught :
  forall (s : LocalDevManager) (c : ChangeInfo) (e : error),
    fst (sendChanges (throwingNet e) c s) = Done Fulfilled
    /\ count isLoggerDebug (trace (snd (sendChanges (throwingNet e) c s)))
       = S (count isLoggerDebug (trace s)).
Proof.
  intros s c e. run_method.
  destruct (event c); cbn; split; try reflexivity; count_solve.
Qed.

(** C3, at the failing input.  When the upload or delete endpoint
    returns a promise that rejects with [e], the [try]/[catch] of
    [sendChanges] does not see the rejection: nothing is logged, the
    promise of [sendChanges] is rejected with [e], the queue task of
    [handleWatchEvent] (which awaits it) is rejected with [e], and the
    task of [flushStandbyChanges] (which does not) leaves an unhandled
    rejection behind.  On the sample project, an added [a.html] whose
    upload is rejected ends the watcher's turn with an unhandled rejection
    and without a log line. *)
Theorem sendChanges_rejection_escapes :
  forall (s : LocalDevManager) (c : ChangeInfo) (sc : StandbyChange)
         (e : error),
    let net := rejectingNet e in
    fst (sendChanges net c s) = Done (Rejected e)
    /\ count isLoggerDebug (trace (snd (sendChanges net c s)))
       = count isLoggerDebug (trace s)
    /\ fst (runTask net (SendTask c) s) = Done (Rejected e)
    /\ count isLoggerDebug (trace (snd (runTask net (SendTask c) s)))
       = count isLoggerDebug (trace s)
    /\ fst (runTask net (FlushTask sc) s) = Done Fulfilled
    /\ last (trace (snd (runTask net (FlushTask sc) s))) SpinniesRemoveAll
       = UnhandledRejection e
    /\ exists s',
         @step sampleCollaborators (Watch WATCH_EVENTS.add aHtml net)
           (sampleBoot false) = Some s'
         /\ exited s' = None
         /\ count isLoggerDebug (trace s') = 0%nat
         /\ last (trace s') SpinniesRemoveAll = UnhandledRejection e.
Proof.
  intros s c sc e net. subst net.
  assert (Hturn : exists s',
             @step sampleCollaborators
               (Watch WATCH_EVENTS.add aHtml (rejectingNet e))
               (sampleBoot false) = Some s'
             /\ exited s' = None
             /\ count isLoggerDebug (trace s') = 0%nat
             /\ last (trace s') SpinniesRemoveAll = UnhandledRejection e).
  { eexists. split; [vm_compute; reflexivity |].
    split; [reflexivity |]. split; vm_compute; reflexivity. }
  split; [| split; [| split; [| split; [| split; [| split;
    [| exact Hturn]]]]]]; run_method.
  - destruct (event c); reflexivity.
  - destruct (event c); cbn; count_solve.
  - destruct (event c); reflexivity.
  - destruct (event c); cbn; count_solve.
  - destruct (isPaused (uploadQueue s)); cbn;
      destruct (debouncedBuild s); cbn;
      destruct (event (info sc)); cbn; reflexivity.
  - destruct (isPaused (uploadQueue s)); cbn;
      destruct (debouncedBuild s); cbn;
      destruct (event (info sc)); cbn; apply last_last.
Qed.

(** C8.  With a staged build in progress, [stop()] swallows a
    [BUILD_NOT_IN_PROGRESS] failure of [cancelStagedBuild] and exits with
    the success code; any other failure of the cancel is reported through
    [logApiErrorInstance] and the process exits with the error code. *)
Theorem stop_exit_code_reflects_cancel :
  forall (s : LocalDevManager),
    truthy (currentStagedBuildId s) = true ->
    let benign := ApiError ERROR_TYPES.BUILD_NOT_IN_PROGRESS in
    (exited (turn (stop (Err benign)) s) = Some EXIT_CODES.SUCCESS
     /\ trace (turn (stop (Err benign)) s) =
          (trace s ++
             [SpinniesRemoveAll;
              SpinniesAdd "cleanupMessage" (i18n "exitingStart");
              WatcherClose;
              CancelStagedBuild (accountId s) (projectName s);
              SpinniesSucceed "cleanupMessage" (i18n "exitingSucceed");
              ProcessExit EXIT_CODES.SUCCESS])%list)
    /\ (forall e : error,
          isSpecifiedError e ERROR_TYPES.BUILD_NOT_IN_PROGRESS = false ->
          exited (turn (stop (Err e)) s) = Some EXIT_CODES.ERROR
          /\ trace (turn (stop (Err e)) s) =
               (trace s ++
                  [SpinniesRemoveAll;
                   SpinniesAdd "cleanupMessage" (i18n "exitingStart");
                   WatcherClose;
                   CancelStagedBuild (accountId s) (projectName s);
                   LogApiErrorInstance e (accountId s) (projectName s);
                   SpinniesFail "cleanupMessage" (i18n "exitingFail");
                   ProcessExit EXIT_CODES.ERROR])%list).
Proof.
  intros s Hb benign. subst benign. split.
  - run_method. rewrite Hb. cbn. rewrite <- !app_assoc. split; reflexivity.
  - intros e He. run_method. rewrite Hb. cbn. rewrite He. cbn.
    rewrite <- !app_assoc. split; reflexivity.
Qed.



(** ** The debounce timer and the flush tasks *)

Lemma frame_refl s : frame s s.
Proof. unfold frame. repeat split; reflexivity. Qed.

Lemma frame_trans s1 s2 s3 : frame s1 s2 -> frame s2 s3 -> frame s1 s3.
Proof. unfold frame. intuition congruence. Qed.

Lemma debounceQueueBuild_spec (s : LocalDevManager) :
  fst (debounceQueueBuild s) = Done tt
  /\ frame s (snd (debounceQueueBuild s))
  /\ trace (snd (debounceQueueBuild s))
     = (trace s ++ [SpinniesUpdate "devModeStatus" (i18n "status.dirty")])%list
  /\ debouncedBuild (snd (debounceQueueBuild s)) = Some (nextTimer s)
  /\ (timer_ok s ->
      timers (snd (debounceQueueBuild s))
      = [(nextTimer s, now s + BUILD_DEBOUNCE_TIME)]).
Proof.
  run_method. destruct (debouncedBuild s) as [h|] eqn:Hh; cbn.
  - repeat split; try reflexivity.
    unfold timer_ok. rewrite Hh.
    destruct (timers s) as [|[h' d] [|]]; cbn; try easy.
    intros [Heq _]. injection Heq as ->. now rewrite Nat.eqb_refl.
  - repeat split; try reflexivity.
    unfold timer_ok. rewrite Hh.
    destruct (timers s) as [|[h' d] [|]]; cbn; easy.
Qed.

Lemma debounceQueueBuild_timer_ok (s : LocalDevManager) :
  timer_ok s -> timer_ok (snd (debounceQueueBuild s)).
Proof.
  intros Hok.
  destruct (debounceQueueBuild_spec s) as (_ & Hfr & _ & Hd & Ht).
  unfold timer_ok. rewrite (Ht Hok), Hd.
  destruct Hfr as (_ & _ & _ & _ & _ & _ & Hnow & _). rewrite Hnow.
  unfold BUILD_DEBOUNCE_TIME. split; [reflexivity | lia].
Qed.

(** [sendChanges] only talks: one status line, one client call, and a
    log line when the call throws. *)
Lemma sendChanges_spec (net : Net) (c : ChangeInfo) (s : LocalDevManager) :
  exists p delta,
    sendChanges net c s = (Done p, set_trace (trace s ++ delta) s)
    /\ submissions delta = []
    /\ fileCalls delta = [fileCallOf (accountId s) (projectName s) c]
    /\ count isQueueBuild delta = 0%nat.
Proof.
  unfold fileCallOf. run_method.
  destruct (event c); cbn;
    match goal with
    | |- context [uploadResult ?n ?a ?b] => destruct (uploadResult n a b)
    | |- context [deleteResult ?n ?a] => destruct (deleteResult n a)
    end; cbn; rewrite <- ?app_assoc; cbn;
    do 2 eexists; (split; [reflexivity |]); repeat split; reflexivity.
Qed.

Lemma frame_set_trace (l : list Effect) (s : LocalDevManager) :
  frame s (set_trace l s).
Proof. unfold frame. cbn. repeat split; reflexivity. Qed.

Lemma timer_ok_set_trace (l : list Effect) (s : LocalDevManager) :
  timer_ok s -> timer_ok (set_trace l s).
Proof. unfold timer_ok. cbn. trivial. Qed.

(** The closure of [flushStandbyChanges], run while the queue runs: it
    re-arms the timer and issues the one call of its entry. *)
Lemma flushTask_spec (net : Net) (c : StandbyChange) (s : LocalDevManager) :
  isPaused (uploadQueue s) = false ->
  exists s' delta,
    uploadQueue_add net (FlushTask c) s = (Done Fulfilled, s')
    /\ frame s s'
    /\ trace s' = (trace s ++ delta)%list
    /\ submissions delta = [FlushTask c]
    /\ fileCalls delta = [fileCallOf (accountId s) (projectName s) (info c)]
    /\ count isQueueBuild delta = 0%nat
    /\ (timer_ok s -> timer_ok s').
Proof.
  intros Hrun.
  unfold uploadQueue_add, runTask, async, queueIsPaused, emit, modify, gets,
    bind, ret. cbn. rewrite Hrun. cbn. rewrite Hrun. cbn.
  set (s0 := set_trace (trace s ++ [QueueAdd (FlushTask c)]) s).
  destruct (debounceQueueBuild_spec s0) as (Hd & Hfr & Htr & _ & _).
  pose proof (debounceQueueBuild_timer_ok s0) as Hok.
  destruct (debounceQueueBuild s0) as [o s1]. cbn in Hd, Hfr, Htr, Hok.
  subst o.
  destruct (sendChanges_spec net (info c) s1) as (p & d & Hs & Hsub & Hcalls & Hq).
  rewrite Hs.
  assert (Hacc : accountId s1 = accountId s /\ projectName s1 = projectName s).
  { unfold accountId, projectName. destruct Hfr as (-> & _). now subst s0. }
  destruct Hacc as [Ha Hp]. rewrite Ha, Hp in Hcalls.
  assert (Hfr' : forall l, frame s (set_trace l s1)).
  { intros l. eapply frame_trans; [apply (frame_set_trace (trace s0) s) |].
    eapply frame_trans; [exact Hfr | apply frame_set_trace]. }
  assert (Htimer : forall l, timer_ok s -> timer_ok (set_trace l s1)).
  { intros l H. apply timer_ok_set_trace, Hok. subst s0.
    now apply timer_ok_set_trace. }
  assert (Hfinish : forall tail,
             submissions tail = [] -> fileCalls tail = [] ->
             count isQueueBuild tail = 0%nat ->
             let delta :=
               ([QueueAdd (FlushTask c);
                 SpinniesUpdate "devModeStatus" (i18n "status.dirty")]
                  ++ d ++ tail)%list in
             (trace s ++ delta)%list = ((trace s1 ++ d) ++ tail)%list
             /\ submissions delta = [FlushTask c]
             /\ fileCalls delta
                = [fileCallOf (accountId s) (projectName s) (info c)]
             /\ count isQueueBuild delta = 0%nat).
  { intros tail H1 H2 H3 delta. subst delta. repeat split.
    - rewrite Htr. now rewrite <- !app_assoc.
    - rewrite !submissions_app, Hsub, H1. reflexivity.
    - rewrite !fileCalls_app, Hcalls, H2. reflexivity.
    - rewrite !count_app, Hq, H3. reflexivity. }
  destruct p; cbn.
  - destruct (Hfinish [] eq_refl eq_refl eq_refl) as (E1 & E2 & E3 & E4).
    eexists. eexists. split; [reflexivity |].
    split; [apply Hfr' |]. cbn [trace set_trace].
    split; [rewrite E1; now rewrite app_nil_r |].
    split; [exact E2 |]. split; [exact E3 |]. split; [exact E4 |].
    apply Htimer.
  - destruct (Hfinish [UnhandledRejection e] eq_refl eq_refl eq_refl)
      as (E1 & E2 & E3 & E4).
    eexists. eexists. split; [reflexivity |].
    split; [apply Hfr' |]. cbn [trace set_trace].
    split; [rewrite E1; reflexivity |].
    split; [exact E2 |]. split; [exact E3 |]. split; [exact E4 |].
    apply Htimer.
  - destruct (Hfinish [] eq_refl eq_refl eq_refl) as (E1 & E2 & E3 & E4).
    eexists. eexists. split; [reflexivity |].
    split; [apply Hfr' |]. cbn [trace set_trace].
    split; [rewrite E1; now rewrite app_nil_r |].
    split; [exact E2 |]. split; [exact E3 |]. split; [exact E4 |].
    apply Htimer.
Qed.

Lemma promise_all_fulfilled {A} (l : list A) :
  promise_all (map (fun _ => Fulfilled) l) = Fulfilled.
Proof. induction l; cbn; auto. Qed.

Lemma flushTasks_spec (net : Net) (l : list StandbyChange) :
  forall s : LocalDevManager,
    isPaused (uploadQueue s) = false ->
    exists s' delta,
      mapM (uploadQueue_add net) (map FlushTask l) s
      = (Done (map (fun _ => Fulfilled) l), s')
      /\ frame s s'
      /\ trace s' = (trace s ++ delta)%list
      /\ submissions delta = map FlushTask l
      /\ fileCalls delta
         = map (fun c => fileCallOf (accountId s) (projectName s) (info c)) l
      /\ count isQueueBuild delta = 0%nat
      /\ (timer_ok s -> timer_ok s').
Proof.
  induction l as [|c l IH]; intros s Hrun.
  - exists s, []. cbn. rewrite app_nil_r.
    repeat split; auto using frame_refl.
  - destruct (flushTask_spec net c s Hrun)
      as (s1 & d1 & E1 & F1 & T1 & S1 & C1 & Q1 & O1).
    assert (Hrun1 : isPaused (uploadQueue s1) = false).
    { destruct F1 as (_ & _ & _ & -> & _). exact Hrun. }
    destruct (IH s1 Hrun1) as (s2 & d2 & E2 & F2 & T2 & S2 & C2 & Q2 & O2).
    exists s2, (d1 ++ d2)%list.
    assert (Hacc : accountId s1 = accountId s /\ projectName s1 = projectName s).
    { unfold accountId, projectName. destruct F1 as (-> & _). now split. }
    destruct Hacc as [Ha Hp]. rewrite Ha, Hp in C2.
    split.
    { cbn [map mapM]. unfold bind at 1. rewrite E1.
      unfold bind at 1. rewrite E2. reflexivity. }
    split; [eapply frame_trans; eassumption |].
    split; [rewrite T2, T1; now rewrite app_assoc |].
    split; [rewrite submissions_app, S1, S2; reflexivity |].
    split; [rewrite fileCalls_app, C1, C2; reflexivity |].
    split; [rewrite count_app, Q1, Q2; reflexivity |].
    auto.
Qed.

(** [flushStandbyChanges] on an empty buffer does nothing at all. *)
Lemma flushStandbyChanges_empty (net : Net) (s : LocalDevManager) :
  standbyChanges s = [] ->
  flushStandbyChanges net s = (Done Fulfilled, s).
Proof.
  intros H. unfold flushStandbyChanges, async, bind, gets, ret.
  rewrite H. reflexivity.
Qed.

(** [flushStandbyChanges] while the queue runs: every buffered entry is
    submitted, in order, each one issues its one client call, and the
    buffer is empty afterwards. *)
Lemma flushStandbyChanges_spec (net : Net) (s : LocalDevManager) :
  isPaused (uploadQueue s) = false ->
  exists s' delta,
    flushStandbyChanges net s = (Done Fulfilled, s')
    /\ standbyChanges s' = []
    /\ frame (set_standbyChanges [] s) s'
    /\ trace s' = (trace s ++ delta)%list
    /\ submissions delta = map FlushTask (standbyChanges s)
    /\ fileCalls delta
       = map (fun c => fileCallOf (accountId s) (projectName s) (info c))
           (standbyChanges s)
    /\ count isQueueBuild delta = 0%nat
    /\ (timer_ok s -> timer_ok s').
Proof.
  intros Hrun.
  destruct (standbyChanges s) as [|c l] eqn:Hsc.
  - exists s, []. rewrite (flushStandbyChanges_empty net s Hsc).
    rewrite app_nil_r.
    repeat split; auto; unfold frame; cbn; try rewrite Hsc; auto.
  - destruct (flushTasks_spec net (c :: l) s Hrun)
      as (s1 & d & E & F & T & S1 & C1 & Q & O).
    exists (set_standbyChanges [] s1), d.
    split.
    { unfold flushStandbyChanges, async, uploadQueue_addAll, bind, gets, ret,
        modify.
      rewrite Hsc, E, promise_all_fulfilled. reflexivity. }
    split; [reflexivity |].
    split.
    { unfold frame in *. cbn. intuition. }
    split; [exact T |].
    split; [exact S1 |]. split; [exact C1 |]. split; [exact Q |].
    intros H. specialize (O H). unfold timer_ok in *. exact O.
Qed.

(** ** What one watcher event does *)

(** The closure of [handleWatchEvent], added while the queue runs: it is
    dispatched at once and issues the one call of its change. *)
Lemma sendTask_spec (net : Net) (c : ChangeInfo) (s : LocalDevManager) :
  isPaused (uploadQueue s) = false ->
  exists p delta,
    uploadQueue_add net (SendTask c) s
    = (Done p, set_trace (trace s ++ delta) s)
    /\ submissions delta = [SendTask c]
    /\ fileCalls delta = [fileCallOf (accountId s) (projectName s) c]
    /\ count isQueueBuild delta = 0%nat.
Proof.
  intros Hrun.
  unfold uploadQueue_add, runTask, async, queueIsPaused, emit, modify, gets,
    bind, ret. cbn. rewrite Hrun.
  set (s0 := set_trace (trace s ++ [QueueAdd (SendTask c)]) s).
  destruct (sendChanges_spec net c s0) as (p & d & E & S1 & C1 & Q1).
  rewrite E.
  exists p, (QueueAdd (SendTask c) :: d).
  split.
  - subst s0. destruct p; cbn; rewrite <- app_assoc; reflexivity.
  - change (QueueAdd (SendTask c) :: d)
      with ([QueueAdd (SendTask c)] ++ d)%list.
    rewrite submissions_app, fileCalls_app, count_app, S1, C1, Q1.
    repeat split; reflexivity.
Qed.

Lemma watch_running (net : Net) (fp : string) (ev : WATCH_EVENTS.t)
    (s : LocalDevManager) :
  preventUploads (options s) = false ->
  isPaused (uploadQueue s) = false ->
  standbyChanges s = [] ->
  let c := {| event := ev; filePath := fp;
              remotePath := path_relative (projectSourceDir s) fp |} in
  let s' := turn (handleWatchEvent net fp ev) s in
  exists delta,
    frame s s'
    /\ trace s' = (trace s ++ delta)%list
    /\ submissions delta = [SendTask c]
    /\ fileCalls delta = [fileCallOf (accountId s) (projectName s) c]
    /\ count isQueueBuild delta = 0%nat
    /\ debouncedBuild s' = Some (nextTimer s)
    /\ (timer_ok s ->
        timers s' = [(nextTimer s, now s + BUILD_DEBOUNCE_TIME)]).
Proof.
  intros Hprev Hrun Hsc c s'. subst s'.
  unfold turn, handleWatchEvent, async, notifyServers, queueIsPaused, gets,
    bind, ret. cbn.
  rewrite Hprev, Hrun, (flushStandbyChanges_empty net s Hsc). cbn.
  rewrite Hrun. cbn.
  destruct (debounceQueueBuild_spec s) as (Hd & Hfr & Htr & Hdb & Ht).
  destruct (debounceQueueBuild s) as [o s1]. cbn in Hd, Hfr, Htr, Hdb, Ht.
  subst o.
  assert (Hrun1 : isPaused (uploadQueue s1) = false).
  { destruct Hfr as (_ & _ & _ & -> & _). exact Hrun. }
  assert (Hsame : accountId s1 = accountId s /\ projectName s1 = projectName s
                  /\ projectSourceDir s1 = projectSourceDir s).
  { unfold accountId, projectName. destruct Hfr as (-> & -> & _). auto. }
  destruct Hsame as (Ha & Hp & Hsrc).
  fold c.
  destruct (sendTask_spec net c s1 Hrun1) as (p & d & E & S1 & C1 & Q1).
  rewrite E. rewrite Ha, Hp in C1.
  assert (Hfr' : forall l, frame s (set_trace l s1)).
  { intros l. eapply frame_trans; [exact Hfr | apply frame_set_trace]. }
  assert (Hfinish : forall tail,
             submissions tail = [] -> fileCalls tail = [] ->
             count isQueueBuild tail = 0%nat ->
             let delta :=
               ([SpinniesUpdate "devModeStatus" (i18n "status.dirty")]
                  ++ d ++ tail)%list in
             (trace s ++ delta)%list = ((trace s1 ++ d) ++ tail)%list
             /\ submissions delta = [SendTask c]
             /\ fileCalls delta
                = [fileCallOf (accountId s) (projectName s) c]
             /\ count isQueueBuild delta = 0%nat).
  { intros tail H1 H2 H3 delta. subst delta. repeat split.
    - rewrite Htr. now rewrite <- !app_assoc.
    - rewrite !submissions_app, S1, H1. reflexivity.
    - rewrite !fileCalls_app, C1, H2. reflexivity.
    - rewrite !count_app, Q1, H3. reflexivity. }
  destruct p; cbn.
  - destruct (Hfinish [] eq_refl eq_refl eq_refl) as (E1 & E2 & E3 & E4).
    eexists. split; [apply Hfr' |].
    split; [rewrite E1; now rewrite app_nil_r |].
    split; [exact E2 |]. split; [exact E3 |]. split; [exact E4 |].
    split; assumption.
  - destruct (Hfinish [UnhandledRejection e] eq_refl eq_refl eq_refl)
      as (E1 & E2 & E3 & E4).
    eexists. split; [apply Hfr' |].
    split; [rewrite E1; reflexivity |].
    split; [exact E2 |]. split; [exact E3 |]. split; [exact E4 |].
    split; assumption.
  - destruct (Hfinish [] eq_refl eq_refl eq_refl) as (E1 & E2 & E3 & E4).
    eexists. split; [apply Hfr' |].
    split; [rewrite E1; now rewrite app_nil_r |].
    split; [exact E2 |]. split; [exact E3 |]. split; [exact E4 |].
    split; assumption.
Qed.

Lemma watch_prevented (net : Net) (fp : string) (ev : WATCH_EVENTS.t)
    (s : LocalDevManager) :
  preventUploads (options s) = true ->
  turn (handleWatchEvent net fp ev) s
  = set_trace
      (trace s ++
         [SpinniesUpdate "devModeStatus" (i18n "status.uploadPrevented");
          SpinniesAdd fp
            ("[WARNING] Upload prevented for "
               ++ path_relative (projectSourceDir s) fp)])
      s.
Proof.
  intros Hprev. run_handler. rewrite Hprev. cbn.
  unfold set_trace. cbn. now rewrite <- app_assoc.
Qed.

Lemma watch_paused (net : Net) (fp : string) (ev : WATCH_EVENTS.t)
    (s : LocalDevManager) :
  preventUploads (options s) = false ->
  isPaused (uploadQueue s) = true ->
  let c := {| event := ev; filePath := fp;
              remotePath := path_relative (projectSourceDir s) fp |} in
  let s' := turn (handleWatchEvent net fp ev) s in
  if existsb (fun x => String.eqb (filePath (info x)) fp) (standbyChanges s)
  then s' = s
  else if isEligible c
       then s' = set_standbyChanges
                   (standbyChanges s ++ [{| info := c; supported := false |}])
                   s
       else exists text, s' = set_trace (trace s ++ [LoggerDebugText text]) s.
Proof.
  intros Hprev Hpaused c s'. subst s' c. run_handler.
  rewrite Hprev, Hpaused. cbn.
  destruct (existsb _ (standbyChanges s)); cbn; [reflexivity |].
  unfold isEligible. cbn.
  destruct ev; cbn;
    destruct (isAllowedExtension fp); cbn;
    destruct (shouldIgnoreFile fp true); cbn;
    try reflexivity; eexists; reflexivity.
Qed.

(** ** What the timer callback does *)

(** The callback up to the poll: the queue is paused, [queueBuild] is
    called exactly once, and neither the timers nor the buffer are
    touched. *)
Lemma callback_spec (queued cancel : Result unit) (s : LocalDevManager) :
  waiting (uploadQueue s) = [] ->
  let s' := turn (debouncedBuildCallback queued cancel) s in
  options s' = options s
  /\ uploadQueue s' = {| isPaused := true; waiting := [] |}
  /\ standbyChanges s' = standbyChanges s
  /\ timers s' = timers s
  /\ debouncedBuild s' = debouncedBuild s
  /\ now s' = now s
  /\ count isQueueBuild (trace s') = S (count isQueueBuild (trace s)).
Proof.
  intros Hw s'. subst s'. run_handler. rewrite Hw. cbn.
  destruct queued as [[]|e]; cbn.
  - repeat split; try reflexivity. count_solve.
  - destruct (isSpecifiedError e ERROR_TYPES.MISSING_PROJECT_PROVISION); cbn.
    + destruct (truthy (currentStagedBuildId s)); cbn.
      * destruct cancel as [[]|e']; cbn.
        -- repeat split; try reflexivity. count_solve.
        -- destruct (isSpecifiedError e' ERROR_TYPES.BUILD_NOT_IN_PROGRESS);
             cbn; repeat split; try reflexivity; count_solve.
      * repeat split; try reflexivity. count_solve.
    + repeat split; try reflexivity. count_solve.
Qed.

Lemma unsupported_existsb (l : list StandbyChange) :
  Forall (fun c => supported c = false) l ->
  existsb (fun c => negb (supported c)) l
  = match l with [] => false | _ :: _ => true end.
Proof.
  intros H. destruct H as [|c l Hc Hl]; cbn; [reflexivity |].
  now rewrite Hc.
Qed.

(** The rest of the callback when the poll and the next provisioning
    succeed: the queue runs again, every buffered entry is submitted in
    order and issues its one call, and the buffer is empty. *)
Lemma resume_ok (b : nat) (cancel : Result unit) (net : Net)
    (s : LocalDevManager) :
  waiting (uploadQueue s) = [] ->
  Forall (fun c => supported c = false) (standbyChanges s) ->
  let s' := turn (debouncedBuildResume (Ok tt) (Ok b) cancel net) s in
  exists delta,
    trace s' = (trace s ++ delta)%list
    /\ submissions delta = map FlushTask (standbyChanges s)
    /\ fileCalls delta
       = map (fun c => fileCallOf (accountId s) (projectName s) (info c))
           (standbyChanges s)
    /\ count isQueueBuild delta = 0%nat
    /\ standbyChanges s' = []
    /\ uploadQueue s' = newPQueue
    /\ currentStagedBuildId s' = Some b
    /\ options s' = options s
    /\ now s' = now s
    /\ exited s' = exited s
    /\ (timer_ok s -> timer_ok s').
Proof.
  intros Hw Hsup s'. subst s'. run_handler. rewrite Hw. cbn.
  destruct (preventUploads (options s)); cbn;
    rewrite (unsupported_existsb _ Hsup);
    destruct (standbyChanges s) as [|c l] eqn:Hsc; cbn.
  1, 3: (eexists; split; [rewrite <- !app_assoc; reflexivity |];
         repeat split; try reflexivity; try assumption;
         unfold timer_ok; cbn; trivial).
  all: match goal with
       | |- context [flushStandbyChanges ?n ?st] =>
           destruct (flushStandbyChanges_spec n st eq_refl)
             as (s1 & d & E & Hs1 & Hfr & Htr & Hsub & Hcalls & Hq & Hok);
           rewrite E
       end;
    cbn in Htr, Hsub, Hcalls, Hok; unfold accountId, projectName in Hcalls;
    cbn in Hcalls; rewrite Hsc in Hsub, Hcalls;
    destruct Hfr as (F1 & F2 & F3 & F4 & F5 & F6 & F7 & F8 & F9);
    cbn in F1, F4, F6, F7, F9; cbn;
    eexists; (split; [rewrite Htr, <- !app_assoc; reflexivity |]);
    rewrite !submissions_app, !fileCalls_app, !count_app, Hsub, Hcalls, Hq;
    repeat split; try assumption; reflexivity.
Qed.

(** The rest of the callback when the poll or the provisioning fails:
    the queue stays as it is, paused. *)
Lemma resume_failed (poll : Result unit) (prov : Result nat)
    (cancel : Result unit) (net : Net) (s : LocalDevManager) :
  (poll <> Ok tt \/ exists e, prov = Err e) ->
  let s' := turn (debouncedBuildResume poll prov cancel net) s in
  options s' = options s
  /\ uploadQueue s' = uploadQueue s
  /\ standbyChanges s' = standbyChanges s
  /\ timers s' = timers s
  /\ debouncedBuild s' = debouncedBuild s
  /\ now s' = now s
  /\ submissions (trace s') = submissions (trace s).
Proof.
  intros H s'. subst s'. run_handler.
  destruct poll as [[]|e0]; cbn.
  - destruct H as [H | [e ->]]; [congruence |]. cbn.
    destruct (isSpecifiedError e ERROR_TYPES.PROJECT_LOCKED); cbn.
    + destruct cancel as [[]|e']; cbn; repeat split; subm_solve.
    + repeat split; subm_solve.
  - repeat split; subm_solve.
Qed.

(** ** The invariant *)

Lemma Inv_sync (s s' : LocalDevManager) :
  uploadQueue s' = uploadQueue s ->
  standbyChanges s' = standbyChanges s ->
  timers s' = timers s ->
  debouncedBuild s' = debouncedBuild s ->
  now s' = now s ->
  Inv s -> Inv s'.
Proof.
  unfold Inv, timer_ok. intros -> -> -> -> ->. trivial.
Qed.

Lemma boot_Inv (o : Options) (prov : Result nat) (cancel : Result unit)
    (net : Net) :
  Inv (boot o prov cancel net).
Proof.
  run_handler.
  destruct (_ || _); cbn; [unfold Inv, timer_ok; cbn; repeat split; auto |].
  destruct (preventUploads o) eqn:Hprev; cbn; rewrite ?Hprev; cbn.
  - unfold Inv, timer_ok. cbn. repeat split; auto.
  - destruct prov as [b|e]; cbn.
    + unfold Inv, timer_ok. cbn. repeat split; auto.
    + destruct (isSpecifiedError e ERROR_TYPES.PROJECT_LOCKED); cbn;
        [destruct cancel as [[]|e']; cbn |];
        unfold Inv, timer_ok; cbn; repeat split; auto.
Qed.

Lemma stop_sync (cancel : Result unit) (s : LocalDevManager) :
  let s' := turn (stop cancel) s in
  options s' = options s
  /\ uploadQueue s' = uploadQueue s
  /\ standbyChanges s' = standbyChanges s
  /\ timers s' = timers s
  /\ debouncedBuild s' = debouncedBuild s
  /\ now s' = now s
  /\ polls s' = polls s
  /\ currentStagedBuildId s' = currentStagedBuildId s.
Proof.
  cbn. run_handler.
  destruct (truthy (currentStagedBuildId s)); cbn;
    [destruct cancel as [[]|e]; cbn;
     [| destruct (isSpecifiedError e ERROR_TYPES.BUILD_NOT_IN_PROGRESS); cbn]
    |]; repeat split; reflexivity.
Qed.

Lemma due_single (s : LocalDevManager) (h : nat) (d : Z) :
  timer_ok s -> due s = Some (h, d) ->
  timers s = [(h, d)] /\ d <= now s
  /\ timers (snd (clearTimeout h s)) = [].
Proof.
  unfold timer_ok, due, clearTimeout, modify. cbn.
  destruct (timers s) as [|[h' d'] [|]]; cbn; try easy.
  intros _. destruct (d' <=? now s) eqn:Hd; [| discriminate].
  intros [= -> ->]. rewrite Nat.eqb_refl. cbn.
  repeat split. now apply Z.leb_le.
Qed.

Lemma step_Inv (t : Turn) (s s' : LocalDevManager) :
  Inv s -> step t s = Some s' -> Inv s'.
Proof.
  intros HI. unfold step.
  destruct (exited s) eqn:Hex; [intros [= <-]; exact HI |].
  destruct t as [dt | ev fp net | queued cancel | poll prov cancel net | cancel].
  - (* Tick *)
    destruct (0 <=? dt) eqn:Hdt; cbn; [| discriminate].
    destruct (forallb _ (timers s)) eqn:Hall; [| discriminate].
    intros [= <-]. apply Z.leb_le in Hdt.
    destruct HI as (Ht & Hw & Hs & Hr). unfold Inv, timer_ok in *. cbn.
    repeat split; try assumption.
    destruct (timers s) as [|[h d] [|]]; try easy.
    cbn in Hall. rewrite andb_true_r in Hall. apply Z.leb_le in Hall.
    destruct Ht as (Hd & Hlo & Hhi). repeat split; [assumption | lia | lia].
  - (* Watch *)
    destruct (watching s && negb (shouldIgnoreFile fp false)); [| discriminate].
    intros [= <-].
    destruct (preventUploads (options s)) eqn:Hprev.
    + rewrite (watch_prevented net fp ev s Hprev).
      eapply Inv_sync; [.. | exact HI]; reflexivity.
    + destruct (isPaused (uploadQueue s)) eqn:Hp.
      * pose proof (watch_paused net fp ev s Hprev Hp) as H. cbn in H.
        destruct (existsb _ (standbyChanges s)).
        { rewrite H. exact HI. }
        destruct (isEligible _).
        { rewrite H. destruct HI as (Ht & Hw & Hs & Hr).
          unfold Inv, timer_ok in *. cbn. repeat split; try assumption.
          - apply Forall_app. split; [assumption |].
            constructor; [reflexivity | constructor].
          - rewrite Hp. discriminate. }
        { destruct H as [text ->].
          eapply Inv_sync; [.. | exact HI]; reflexivity. }
      * destruct HI as (Ht & Hw & Hs & Hr).
        destruct (watch_running net fp ev s Hprev Hp (Hr Hp))
          as (d & Hfr & _ & _ & _ & _ & Hdb & Htm).
        destruct Hfr as (_ & _ & _ & Hq & Hsc & _ & Hnow & _).
        unfold Inv, timer_ok. rewrite (Htm Ht), Hdb, Hq, Hsc, Hnow.
        repeat split; try assumption; try reflexivity.
        unfold BUILD_DEBOUNCE_TIME. lia.
  - (* Fire *)
    destruct (due s) as [[h d]|] eqn:Hdue; [| discriminate].
    intros [= <-].
    destruct HI as (Ht & Hw & Hs & Hr).
    destruct (due_single s h d Ht Hdue) as (_ & _ & Hcleared).
    set (s0 := snd (clearTimeout h s)) in *.
    assert (Hw0 : waiting (uploadQueue s0) = []) by exact Hw.
    destruct (callback_spec queued cancel s0 Hw0)
      as (_ & Hq & Hsc & Htm & _ & _ & _).
    change (Inv (turn (debouncedBuildCallback queued cancel) s0)).
    unfold Inv, timer_ok. rewrite Htm, Hcleared, Hq, Hsc.
    repeat split; try assumption. discriminate.
  - (* PollDone *)
    destruct (polls s) as [|n] eqn:Hn; [discriminate |].
    intros [= <-].
    destruct HI as (Ht & Hw & Hs & Hr).
    set (s0 := set_polls n s).
    change (Inv (turn (debouncedBuildResume poll prov cancel net) s0)).
    assert (HI0 : Inv s0) by (unfold Inv, timer_ok; cbn; repeat split; auto).
    destruct poll as [[]|e0].
    + destruct prov as [b|e].
      * destruct (resume_ok b cancel net s0 Hw Hs)
          as (d & _ & _ & _ & _ & Hsc & Hq & _ & _ & _ & _ & Hok).
        unfold Inv. rewrite Hsc, Hq. cbn.
        repeat split; auto.
      * destruct (resume_failed (Ok tt) (Err e) cancel net s0)
          as (_ & Hq & Hsc & Htm & Hdb & Hnow & _);
          [right; eexists; reflexivity |].
        eapply Inv_sync; [.. | exact HI0]; assumption.
    + destruct (resume_failed (Err e0) prov cancel net s0)
        as (_ & Hq & Hsc & Htm & Hdb & Hnow & _);
        [left; discriminate |].
      eapply Inv_sync; [.. | exact HI0]; assumption.
  - (* Stop *)
    intros [= <-].
    destruct (stop_sync cancel s) as (_ & Hq & Hsc & Htm & Hdb & Hnow & _).
    eapply Inv_sync; [.. | exact HI]; assumption.
Qed.

Lemma run_Inv (ts : list Turn) :
  forall s s', Inv s -> run ts s = Some s' -> Inv s'.
Proof.
  induction ts as [|t ts IH]; cbn; intros s s' HI.
  - intros [= <-]. exact HI.
  - destruct (step t s) as [s1|] eqn:Hstep; [| discriminate].
    apply IH. eapply step_Inv; eassumption.
Qed.

Lemma reachable_Inv (s : LocalDevManager) : reachable s -> Inv s.
Proof.
  intros (o & prov & cancel & net & ts & Hrun).
  eapply run_Inv; [apply boot_Inv | exact Hrun].
Qed.

(** ** The claims about whole runs *)

(** C10.  [notifyServers] answers [false] for every change and touches
    nothing, so no run ever buffers a change marked [supported], and
    [hasAnyUnsupportedStandbyChanges()] is true exactly when the standby
    buffer is not empty. *)
Theorem notifyServers_never_supports :
  (forall (c : ChangeInfo) (s : LocalDevManager),
      notifyServers c s = (Done false, s))
  /\ (forall s : LocalDevManager,
        reachable s ->
        Forall (fun c => supported c = false) (standbyChanges s)
        /\ hasAnyUnsupportedStandbyChanges s
           = (Done (negb (Nat.eqb (List.length (standbyChanges s)) 0)), s)).
Proof.
  split; [reflexivity |].
  intros s Hr. destruct (reachable_Inv s Hr) as (_ & _ & Hs & _).
  split; [exact Hs |].
  unfold hasAnyUnsupportedStandbyChanges, gets.
  rewrite (unsupported_existsb _ Hs).
  destruct (standbyChanges s); reflexivity.
Qed.

Lemma statusOnly_quiet (l : list Effect) :
  forallb isStatusOnly l = true ->
  count isProvision l = 0%nat /\ submissions l = [] /\ fileCalls l = [].
Proof.
  induction l as [|e l IH]; cbn; [auto |].
  intros H. apply andb_true_iff in H. destruct H as [He Hl].
  destruct (IH Hl) as (H1 & H2 & H3).
  unfold count, submissions, fileCalls in *.
  destruct e; cbn in *; try discriminate; auto.
Qed.

Lemma boot_Prevented (o : Options) (prov : Result nat) (cancel : Result unit)
    (net : Net) :
  preventUploads o = true -> Prevented (boot o prov cancel net).
Proof.
  intros Hprev. run_handler.
  destruct (_ || _); cbn; [unfold Prevented; cbn; repeat split; auto |].
  rewrite Hprev. cbn. rewrite Hprev. cbn.
  unfold Prevented. cbn. repeat split; auto.
Qed.

Lemma step_Prevented (t : Turn) (s s' : LocalDevManager) :
  Prevented s -> step t s = Some s' -> Prevented s'.
Proof.
  intros HP. unfold step.
  destruct (exited s) eqn:Hex; [intros [= <-]; exact HP |].
  destruct HP as (Hprev & Htm & Hpolls & Hb & Hsc & Htr).
  destruct t as [dt | ev fp net | queued cancel | poll prov cancel net | cancel].
  - destruct (_ && _); [| discriminate]. intros [= <-].
    unfold Prevented. cbn. repeat split; assumption.
  - destruct (_ && _); [| discriminate]. intros [= <-].
    rewrite (watch_prevented net fp ev s Hprev).
    unfold Prevented. cbn. rewrite forallb_app, Htr.
    repeat split; assumption.
  - unfold due. rewrite Htm. discriminate.
  - rewrite Hpolls. discriminate.
  - intros [= <-]. run_handler. rewrite Hb. cbn.
    unfold Prevented. cbn. rewrite !forallb_app, Htr.
    repeat split; assumption.
Qed.

Lemma run_Prevented (ts : list Turn) :
  forall s s', Prevented s -> run ts s = Some s' -> Prevented s'.
Proof.
  induction ts as [|t ts IH]; cbn; intros s s' HP.
  - intros [= <-]. exact HP.
  - destruct (step t s) as [s1|] eqn:Hstep; [| discriminate].
    apply IH. eapply step_Prevented; eassumption.
Qed.

(** C5.  With [preventUploads] set, no run ever calls [provisionBuild],
    submits anything to the upload queue, calls the upload or delete
    endpoint or buffers a change: every effect of the run is a status
    update (or the watcher closing and the process exiting on [stop]), and
    a change the watcher reports yields exactly the two status updates of
    the upload-prevented branch. *)
Theorem preventUploads_only_reports :
  forall (o : Options) (prov : Result nat) (cancel : Result unit) (net : Net)
         (ts : list Turn) (s : LocalDevManager),
    preventUploads o = true ->
    run ts (boot o prov cancel net) = Some s ->
    count isProvision (trace s) = 0%nat
    /\ submissions (trace s) = []
    /\ fileCalls (trace s) = []
    /\ standbyChanges s = []
    /\ forallb isStatusOnly (trace s) = true
    /\ (forall ev fp net' s',
          exited s = None ->
          step (Watch ev fp net') s = Some s' ->
          s' = set_trace
                 (trace s ++
                    [SpinniesUpdate "devModeStatus"
                       (i18n "status.uploadPrevented");
                     SpinniesAdd fp
                       ("[WARNING] Upload prevented for "
                          ++ path_relative (projectSourceDir s) fp)])
                 s).
Proof.
  intros o prov cancel net ts s Hprev Hrun.
  pose proof (run_Prevented ts _ _ (boot_Prevented o prov cancel net Hprev) Hrun)
    as (Hp & _ & _ & _ & Hsc & Htr).
  destruct (statusOnly_quiet _ Htr) as (H1 & H2 & H3).
  repeat split; try assumption.
  intros ev fp net' s' Hex. unfold step. rewrite Hex.
  destruct (_ && _); [| discriminate]. intros [= <-].
  apply watch_prevented, Hp.
Qed.

(** ** The debounce window *)





(** ** The fate of a change *)



(** ** More about single handlers *)

Lemma last_app_nonempty (l1 l2 : list Effect) (d : Effect) :
  l2 <> [] -> last (l1 ++ l2) d = last l2 d.
Proof.
  intros H. induction l1 as [|a l1 IH]; [reflexivity |].
  cbn [app last]. destruct (l1 ++ l2)%list eqn:E; [| exact IH].
  apply app_eq_nil in E. destruct E as [_ E]. contradiction.
Qed.


Ltac facts :=
  repeat match goal with
         | |- exists _ : list Effect, _ => eexists
         | |- exists _ : EXIT_CODES.t, _ => eexists
         | |- _ /\ _ => split
         | |- (trace _ ++ _)%list = _ => rewrite <- ?app_assoc; reflexivity
         | |- _ = (trace _ ++ _)%list => rewrite <- ?app_assoc; reflexivity
         | |- _ => reflexivity
         | |- _ => intro; assumption
         end.

(** [stop()] closes the watcher, issues neither a file call nor a build
    call other than the cancel, and ends in [process.exit]. *)
Lemma stop_facts (cancel : Result unit) (s : LocalDevManager) :
  let s' := turn (stop cancel) s in
  watching s' = false
  /\ exited s' = Some (stopCode (currentStagedBuildId s) cancel)
  /\ exists delta,
       trace s' = (trace s ++ delta)%list
       /\ fileCalls delta = []
       /\ submissions delta = []
       /\ count isProvision delta = 0%nat
       /\ count isPoll delta = 0%nat
       /\ count isQueueBuild delta = 0%nat
       /\ count isExit delta = 1%nat
       /\ count isCancel delta
          = (if truthy (currentStagedBuildId s) then 1 else 0)%nat
       /\ last delta SpinniesRemoveAll
          = ProcessExit (stopCode (currentStagedBuildId s) cancel).
Proof.
  cbn zeta. unfold stopCode. run_handler.
  destruct (truthy (currentStagedBuildId s)); cbn;
    [destruct cancel as [[]|e]; cbn;
     [| destruct (isSpecifiedError e ERROR_TYPES.BUILD_NOT_IN_PROGRESS); cbn]
    |]; facts.
Qed.

(** The timer callback up to the poll, effect by effect. *)
Lemma callback_facts (queued cancel : Result unit) (s : LocalDevManager) :
  waiting (uploadQueue s) = [] ->
  let s' := turn (debouncedBuildCallback queued cancel) s in
  currentStagedBuildId s' = currentStagedBuildId s
  /\ (watching s' = true -> watching s = true)
  /\ exists delta,
       trace s' = (trace s ++ delta)%list
       /\ fileCalls delta = []
       /\ submissions delta = []
       /\ count isProvision delta = 0%nat
       /\ count isQueueBuild delta = 1%nat
       /\ match queued with
          | Ok _ =>
              exited s' = exited s
              /\ polls s' = S (polls s)
              /\ count isPoll delta = 1%nat
              /\ count isExit delta = 0%nat
          | Err e =>
              polls s' = polls s
              /\ count isPoll delta = 0%nat
              /\ if isSpecifiedError e ERROR_TYPES.MISSING_PROJECT_PROVISION
                 then
                   watching s' = false
                   /\ exited s' = Some (stopCode (currentStagedBuildId s) cancel)
                   /\ count isExit delta = 1%nat
                   /\ count isCancel delta
                      = (if truthy (currentStagedBuildId s) then 1 else 0)%nat
                   /\ last delta SpinniesRemoveAll
                      = ProcessExit (stopCode (currentStagedBuildId s) cancel)
                 else
                   exited s' = exited s /\ count isExit delta = 0%nat
          end.
Proof.
  intros Hw. cbn zeta. unfold stopCode. run_handler. rewrite Hw. cbn.
  destruct queued as [[]|e]; cbn.
  - facts.
  - destruct (isSpecifiedError e ERROR_TYPES.MISSING_PROJECT_PROVISION); cbn.
    + destruct (truthy (currentStagedBuildId s)); cbn;
        [destruct cancel as [[]|e']; cbn;
         [| destruct (isSpecifiedError e' ERROR_TYPES.BUILD_NOT_IN_PROGRESS);
            cbn]
        |]; facts; discriminate.
    + facts.
Qed.

(** The rest of the callback when the poll or the provisioning fails,
    effect by effect. *)
Lemma resume_failed_facts (poll : Result unit) (prov : Result nat)
    (cancel : Result unit) (net : Net) (s : LocalDevManager) :
  (poll <> Ok tt \/ exists e, prov = Err e) ->
  let s' := turn (debouncedBuildResume poll prov cancel net) s in
  currentStagedBuildId s' = currentStagedBuildId s
  /\ watching s' = watching s
  /\ polls s' = polls s
  /\ exists delta,
       trace s' = (trace s ++ delta)%list
       /\ fileCalls delta = []
       /\ (count isProvision delta <= 1)%nat
       /\ count isPoll delta = 0%nat
       /\ count isQueueBuild delta = 0%nat
       /\ exits s s' delta.
Proof.
  intros H. cbn zeta. unfold exits. run_handler.
  destruct poll as [[]|e0]; cbn.
  - destruct H as [H | [e ->]]; [congruence |]. cbn.
    destruct (isSpecifiedError e ERROR_TYPES.PROJECT_LOCKED); cbn.
    + destruct cancel as [[]|e']; cbn.
      * do 3 (split; [reflexivity |]). eexists.
        split; [rewrite <- ?app_assoc; reflexivity |].
        do 4 (split; [cbv; auto |]). right. eexists. facts.
      * do 3 (split; [reflexivity |]). eexists.
        split; [rewrite <- ?app_assoc; reflexivity |].
        do 4 (split; [cbv; auto |]). left. facts.
    + do 3 (split; [reflexivity |]). eexists.
      split; [rewrite <- ?app_assoc; reflexivity |].
      do 4 (split; [cbv; auto |]). right. eexists. facts.
  - do 3 (split; [reflexivity |]). eexists.
    split; [rewrite <- ?app_assoc; reflexivity |].
    do 4 (split; [cbv; auto |]). left. facts.
Qed.

(** ** Handling changes leaves only change effects *)

Lemma changeEffects_counts (l : list Effect) :
  forallb isChangeEffect l = true ->
  count isProvision l = 0%nat /\ count isPoll l = 0%nat
  /\ count isQueueBuild l = 0%nat /\ count isExit l = 0%nat
  /\ count isCancel l = 0%nat.
Proof.
  induction l as [|e l IH]; cbn; [repeat split; reflexivity |].
  intros H. apply andb_true_iff in H. destruct H as [He Hl].
  destruct (IH Hl) as (H1 & H2 & H3 & H4 & H5).
  unfold count in *.
  destruct e; cbn in *; try discriminate; repeat split; assumption.
Qed.

Lemma sendChanges_change (net : Net) (c : ChangeInfo) (s : LocalDevManager) :
  exists delta,
    trace (snd (sendChanges net c s)) = (trace s ++ delta)%list
    /\ forallb isChangeEffect delta = true.
Proof.
  run_method.
  destruct (event c); cbn;
    match goal with
    | |- context [uploadResult ?n ?a ?b] => destruct (uploadResult n a b)
    | |- context [deleteResult ?n ?a] => destruct (deleteResult n a)
    end; cbn; rewrite <- ?app_assoc;
    eexists; (split; [reflexivity |]); reflexivity.
Qed.

Lemma flushTask_change (net : Net) (c : StandbyChange) (s : LocalDevManager) :
  isPaused (uploadQueue s) = false ->
  exists delta,
    trace (snd (uploadQueue_add net (FlushTask c) s)) = (trace s ++ delta)%list
    /\ forallb isChangeEffect delta = true.
Proof.
  intros Hrun.
  unfold uploadQueue_add, runTask, async, queueIsPaused, emit, modify, gets,
    bind, ret. cbn. rewrite Hrun. cbn. rewrite Hrun. cbn.
  set (s0 := set_trace (trace s ++ [QueueAdd (FlushTask c)]) s).
  destruct (debounceQueueBuild_spec s0) as (Hd & _ & Htr & _ & _).
  destruct (debounceQueueBuild s0) as [o s1]. cbn in Hd, Htr. subst o.
  destruct (sendChanges_spec net (info c) s1) as (p & d0 & Hs & _).
  destruct (sendChanges_change net (info c) s1) as (d & Hd1 & Hd2).
  rewrite Hs in Hd1 |- *. cbn in Hd1.
  apply app_inv_head in Hd1. subst d0.
  destruct p; cbn; rewrite Htr; subst s0; cbn.
  - exists ([QueueAdd (FlushTask c);
             SpinniesUpdate "devModeStatus" (i18n "status.dirty")] ++ d)%list.
    split; [now rewrite <- !app_assoc |].
    rewrite forallb_app, Hd2. reflexivity.
  - exists ([QueueAdd (FlushTask c);
             SpinniesUpdate "devModeStatus" (i18n "status.dirty")] ++ d
            ++ [UnhandledRejection e])%list.
    split; [now rewrite <- !app_assoc |].
    rewrite !forallb_app, Hd2. reflexivity.
  - exists ([QueueAdd (FlushTask c);
             SpinniesUpdate "devModeStatus" (i18n "status.dirty")] ++ d)%list.
    split; [now rewrite <- !app_assoc |].
    rewrite forallb_app, Hd2. reflexivity.
Qed.

Lemma flushTasks_change (net : Net) (l : list StandbyChange) :
  forall s : LocalDevManager,
    isPaused (uploadQueue s) = false ->
    exists delta,
      trace (snd (mapM (uploadQueue_add net) (map FlushTask l) s))
      = (trace s ++ delta)%list
      /\ forallb isChangeEffect delta = true.
Proof.
  induction l as [|c l IH]; intros s Hrun.
  - exists []. cbn. now rewrite app_nil_r.
  - destruct (flushTask_spec net c s Hrun) as (s1 & _ & E1 & F1 & _).
    destruct (flushTask_change net c s Hrun) as (d1 & T1 & C1).
    rewrite E1 in T1. cbn in T1.
    assert (Hrun1 : isPaused (uploadQueue s1) = false).
    { destruct F1 as (_ & _ & _ & -> & _). exact Hrun. }
    destruct (flushTasks_spec net l s1 Hrun1) as (s2 & _ & E2 & _).
    destruct (IH s1 Hrun1) as (d2 & T2 & C2).
    rewrite E2 in T2. cbn in T2.
    exists (d1 ++ d2)%list. split.
    + cbn [map mapM]. unfold bind at 1. rewrite E1.
      unfold bind at 1. rewrite E2. cbn. rewrite T2, T1.
      now rewrite app_assoc.
    + rewrite forallb_app, C1, C2. reflexivity.
Qed.

Lemma flushStandbyChanges_change (net : Net) (s : LocalDevManager) :
  isPaused (uploadQueue s) = false ->
  exists delta,
    trace (snd (flushStandbyChanges net s)) = (trace s ++ delta)%list
    /\ forallb isChangeEffect delta = true.
Proof.
  intros Hrun.
  destruct (standbyChanges s) as [|c l] eqn:Hsc.
  - exists []. rewrite (flushStandbyChanges_empty net s Hsc). cbn.
    now rewrite app_nil_r.
  - destruct (flushTasks_spec net (c :: l) s Hrun) as (s1 & _ & E & _).
    destruct (flushTasks_change net (c :: l) s Hrun) as (d & T & Cd).
    rewrite E in T. cbn in T.
    exists d. split; [| exact Cd].
    unfold flushStandbyChanges, async, uploadQueue_addAll, bind, gets, ret,
      modify.
    rewrite Hsc, E, promise_all_fulfilled. cbn. exact T.
Qed.

Lemma sendTask_change (net : Net) (c : ChangeInfo) (s : LocalDevManager) :
  isPaused (uploadQueue s) = false ->
  exists delta,
    trace (snd (uploadQueue_add net (SendTask c) s)) = (trace s ++ delta)%list
    /\ forallb isChangeEffect delta = true.
Proof.
  intros Hrun.
  unfold uploadQueue_add, runTask, async, queueIsPaused, emit, modify, gets,
    bind, ret. cbn. rewrite Hrun.
  set (s0 := set_trace (trace s ++ [QueueAdd (SendTask c)]) s).
  destruct (sendChanges_spec net c s0) as (p & d0 & Hs & _).
  destruct (sendChanges_change net c s0) as (d & Hd1 & Hd2).
  rewrite Hs in Hd1 |- *. cbn in Hd1.
  apply app_inv_head in Hd1. subst d0.
  exists ([QueueAdd (SendTask c)] ++ d)%list. split.
  - subst s0. destruct p; cbn; now rewrite <- app_assoc.
  - rewrite forallb_app, Hd2. reflexivity.
Qed.

Lemma watch_change (net : Net) (fp : string) (ev : WATCH_EVENTS.t)
    (s : LocalDevManager) :
  (isPaused (uploadQueue s) = false -> standbyChanges s = []) ->
  exists delta,
    trace (turn (handleWatchEvent net fp ev) s) = (trace s ++ delta)%list
    /\ forallb isChangeEffect delta = true.
Proof.
  intros Hempty.
  destruct (preventUploads (options s)) eqn:Hprev.
  - rewrite (watch_prevented net fp ev s Hprev). cbn. eexists.
    split; reflexivity.
  - destruct (isPaused (uploadQueue s)) eqn:Hp.
    + pose proof (watch_paused net fp ev s Hprev Hp) as H. cbn in H.
      destruct (existsb _ (standbyChanges s)).
      { rewrite H. exists []. now rewrite app_nil_r. }
      destruct (isEligible _).
      { rewrite H. cbn. exists []. now rewrite app_nil_r. }
      { destruct H as [text ->]. cbn. eexists. split; reflexivity. }
    + specialize (Hempty eq_refl).
      unfold turn, handleWatchEvent, async, notifyServers, queueIsPaused, gets,
        bind, ret. cbn.
      rewrite Hprev, Hp, (flushStandbyChanges_empty net s Hempty). cbn.
      rewrite Hp. cbn.
      destruct (debounceQueueBuild_spec s) as (Hd & Hfr & Htr & _ & _).
      destruct (debounceQueueBuild s) as [o s1]. cbn in Hd, Hfr, Htr.
      subst o.
      assert (Hrun1 : isPaused (uploadQueue s1) = false).
      { destruct Hfr as (_ & _ & _ & -> & _). exact Hp. }
      match goal with
      | |- context [uploadQueue_add net (SendTask ?c) s1] =>
          destruct (sendTask_spec net c s1 Hrun1) as (p & d0 & E & _);
          destruct (sendTask_change net c s1 Hrun1) as (d & T & Cd)
      end.
      rewrite E in T |- *. cbn in T. apply app_inv_head in T. subst d0.
      destruct p; cbn; rewrite Htr.
      * exists ([SpinniesUpdate "devModeStatus" (i18n "status.dirty")] ++ d)%list.
        split; [now rewrite <- !app_assoc |].
        rewrite forallb_app, Cd. reflexivity.
      * exists ([SpinniesUpdate "devModeStatus" (i18n "status.dirty")] ++ d
                ++ [UnhandledRejection e])%list.
        split; [now rewrite <- !app_assoc |].
        rewrite !forallb_app, Cd. reflexivity.
      * exists ([SpinniesUpdate "devModeStatus" (i18n "status.dirty")] ++ d)%list.
        split; [now rewrite <- !app_assoc |].
        rewrite forallb_app, Cd. reflexivity.
Qed.

(** What handling a change leaves alone. *)
Lemma watch_frame (net : Net) (fp : string) (ev : WATCH_EVENTS.t)
    (s : LocalDevManager) :
  (isPaused (uploadQueue s) = false -> standbyChanges s = []) ->
  let s' := turn (handleWatchEvent net fp ev) s in
  options s' = options s
  /\ watching s' = watching s
  /\ uploadQueue s' = uploadQueue s
  /\ currentStagedBuildId s' = currentStagedBuildId s
  /\ polls s' = polls s
  /\ exited s' = exited s.
Proof.
  intros Hempty. cbn zeta.
  destruct (preventUploads (options s)) eqn:Hprev.
  - rewrite (watch_prevented net fp ev s Hprev). cbn. repeat split.
  - destruct (isPaused (uploadQueue s)) eqn:Hp.
    + pose proof (watch_paused net fp ev s Hprev Hp) as H. cbn in H.
      destruct (existsb _ (standbyChanges s)).
      { rewrite H. repeat split; assumption. }
      destruct (isEligible _).
      { rewrite H. cbn. repeat split; assumption. }
      { destruct H as [text ->]. cbn. repeat split; assumption. }
    + destruct (watch_running net fp ev s Hprev Hp (Hempty eq_refl))
        as (d & Hfr & _).
      destruct Hfr as (H1 & _ & H3 & H4 & _ & H6 & _ & H8 & H9).
      repeat split; assumption.
Qed.

(** The rest of the callback when the poll and the next provisioning
    succeed, effect by effect. *)
Lemma resume_ok_facts (b : nat) (cancel : Result unit) (net : Net)
    (s : LocalDevManager) :
  waiting (uploadQueue s) = [] ->
  let s' := turn (debouncedBuildResume (Ok tt) (Ok b) cancel net) s in
  currentStagedBuildId s' = Some b
  /\ options s' = options s
  /\ watching s' = watching s
  /\ polls s' = polls s
  /\ exited s' = exited s
  /\ exists delta,
       trace s' = (trace s ++ delta)%list
       /\ count isProvision delta = 1%nat
       /\ count isPoll delta = 0%nat
       /\ count isQueueBuild delta = 0%nat
       /\ count isExit delta = 0%nat.
Proof.
  intros Hw. cbn zeta. run_handler. rewrite Hw. cbn.
  destruct (preventUploads (options s)); cbn;
    destruct (existsb _ (standbyChanges s)); cbn.
  2, 4: (do 5 (split; [reflexivity |]); eexists;
         split; [rewrite <- !app_assoc; reflexivity |];
         repeat split; reflexivity).
  all: match goal with
       | |- context [flushStandbyChanges ?n ?st] =>
           destruct (flushStandbyChanges_spec n st eq_refl)
             as (s1 & d0 & E & _ & Hfr & _);
           destruct (flushStandbyChanges_change n st eq_refl)
             as (d & T & Cd);
           rewrite E in T |- *
       end;
    cbn in T;
    destruct (changeEffects_counts d Cd) as (C1 & C2 & C3 & C4 & _);
    destruct Hfr as (F1 & F2 & F3 & F4 & F5 & F6 & F7 & F8 & F9);
    cbn in F1, F3, F6, F8, F9; cbn;
    do 5 (split; [assumption |]);
    eexists; (split; [rewrite T, <- !app_assoc; reflexivity |]);
    rewrite !count_app, C1, C2, C3, C4; repeat split; reflexivity.
Qed.

(** ** More invariants of whole runs *)

Lemma existsb_path_false (fp : string) (l : list StandbyChange) :
  existsb (fun x => String.eqb (filePath (info x)) fp) l = false ->
  ~ In fp (map (fun c => filePath (info c)) l).
Proof.
  induction l as [|c l IH]; cbn; [tauto |].
  intros H. apply orb_false_iff in H. destruct H as [Hc Hl].
  intros [Heq | Hin]; [| exact (IH Hl Hin)].
  apply String.eqb_neq in Hc. contradiction.
Qed.

Lemma NoDup_snoc (l : list string) (a : string) :
  NoDup l -> ~ In a l -> NoDup (l ++ [a]).
Proof.
  induction l as [|b l IH]; cbn; intros Hnd Hin.
  - constructor; [tauto | constructor].
  - inversion Hnd as [|? ? Hb Hl]; subst. constructor.
    + rewrite in_app_iff. cbn. intros [H | [H | []]]; [tauto |].
      subst. tauto.
    + apply IH; tauto.
Qed.

Lemma Uniq_same (s s' : LocalDevManager) :
  standbyChanges s' = standbyChanges s -> Uniq s -> Uniq s'.
Proof. unfold Uniq, bufferedPaths. intros ->. trivial. Qed.

Lemma Uniq_empty (s : LocalDevManager) : standbyChanges s = [] -> Uniq s.
Proof.
  unfold Uniq, bufferedPaths. intros ->. split; constructor.
Qed.

Lemma step_Uniq (t : Turn) (s s' : LocalDevManager) :
  Inv s -> Uniq s -> step t s = Some s' -> Uniq s'.
Proof.
  intros HI HU. unfold step.
  destruct (exited s) eqn:Hex; [intros [= <-]; exact HU |].
  destruct HI as (Ht & Hw & Hs & Hr).
  destruct t as [dt | ev fp net | queued cancel | poll prov cancel net | cancel].
  - destruct (_ && _); [| discriminate]. intros [= <-].
    eapply Uniq_same; [| exact HU]. reflexivity.
  - destruct (_ && _); [| discriminate]. intros [= <-].
    destruct (preventUploads (options s)) eqn:Hprev.
    + rewrite (watch_prevented net fp ev s Hprev).
      eapply Uniq_same; [| exact HU]. reflexivity.
    + destruct (isPaused (uploadQueue s)) eqn:Hp.
      * pose proof (watch_paused net fp ev s Hprev Hp) as H. cbn in H.
        destruct (existsb _ (standbyChanges s)) eqn:Hfind.
        { rewrite H. exact HU. }
        destruct (isEligible _) eqn:Hel.
        { rewrite H. destruct HU as [Hnd Hall].
          unfold Uniq, bufferedPaths in *. cbn. split.
          - rewrite map_app. cbn. apply NoDup_snoc; [exact Hnd |].
            exact (existsb_path_false _ _ Hfind).
          - apply Forall_app. split; [exact Hall |].
            constructor; [exact Hel | constructor]. }
        { destruct H as [text ->].
          eapply Uniq_same; [| exact HU]. reflexivity. }
      * destruct (watch_running net fp ev s Hprev Hp (Hr eq_refl))
          as (d & Hfr & _).
        destruct Hfr as (_ & _ & _ & _ & Hsc & _).
        eapply Uniq_same; [exact Hsc | exact HU].
  - destruct (due s) as [[h d]|] eqn:Hdue; [| discriminate].
    intros [= <-].
    set (s0 := snd (clearTimeout h s)).
    change (Uniq (turn (debouncedBuildCallback queued cancel) s0)).
    destruct (callback_spec queued cancel s0 Hw) as (_ & _ & Hsc & _).
    eapply Uniq_same; [exact Hsc | exact HU].
  - destruct (polls s) as [|n] eqn:Hn; [discriminate |].
    intros [= <-].
    set (s0 := set_polls n s).
    change (Uniq (turn (debouncedBuildResume poll prov cancel net) s0)).
    destruct poll as [[]|e0].
    + destruct prov as [b|e].
      * destruct (resume_ok b cancel net s0 Hw Hs)
          as (d & _ & _ & _ & _ & Hsc & _).
        apply Uniq_empty, Hsc.
      * destruct (resume_failed (Ok tt) (Err e) cancel net s0)
          as (_ & _ & Hsc & _); [right; eexists; reflexivity |].
        eapply Uniq_same; [exact Hsc | exact HU].
    + destruct (resume_failed (Err e0) prov cancel net s0)
        as (_ & _ & Hsc & _); [left; discriminate |].
      eapply Uniq_same; [exact Hsc | exact HU].
  - intros [= <-].
    destruct (stop_sync cancel s) as (_ & _ & Hsc & _).
    eapply Uniq_same; [exact Hsc | exact HU].
Qed.

Lemma step_DeployInv (t : Turn) (s s' : LocalDevManager) :
  Inv s -> DeployInv s -> step t s = Some s' -> DeployInv s'.
Proof.
  intros HI HD. unfold step.
  destruct (exited s) eqn:Hex; [intros [= <-]; exact HD |].
  destruct HI as (Ht & Hw & Hs & Hr).
  destruct HD as (D1 & D2 & D3).
  destruct t as [dt | ev fp net | queued cancel | poll prov cancel net | cancel].
  - destruct (_ && _); [| discriminate]. intros [= <-].
    unfold DeployInv. cbn. auto.
  - destruct (_ && _); [| discriminate]. intros [= <-].
    destruct (preventUploads (options s)) eqn:Hprev.
    + rewrite (watch_prevented net fp ev s Hprev). unfold DeployInv. cbn. auto.
    + destruct (isPaused (uploadQueue s)) eqn:Hp.
      * pose proof (watch_paused net fp ev s Hprev Hp) as H. cbn in H.
        destruct (existsb _ (standbyChanges s)).
        { rewrite H. unfold DeployInv. rewrite Hp. auto. }
        destruct (isEligible _).
        { rewrite H. unfold DeployInv. cbn. rewrite Hp. auto. }
        { destruct H as [text ->]. unfold DeployInv. cbn. rewrite Hp. auto. }
      * destruct (watch_running net fp ev s Hprev Hp (Hr eq_refl))
          as (d & Hfr & _).
        destruct Hfr as (_ & _ & _ & Hq & _ & _ & _ & Hpolls & _).
        unfold DeployInv. rewrite Hq, Hpolls, Hp.
        split; [exact D1 |]. split; [exact D2 | discriminate].
  - destruct (due s) as [[h d]|] eqn:Hdue; [| discriminate].
    intros [= <-].
    destruct (due_single s h d Ht Hdue) as (Htm & _ & Hcleared).
    assert (Hp0 : polls s = 0%nat).
    { destruct (isPaused (uploadQueue s)) eqn:Hp.
      - rewrite (D3 eq_refl) in Htm. discriminate.
      - destruct (polls s) as [|[|n]]; [reflexivity | | lia].
        specialize (D2 eq_refl). discriminate. }
    set (s0 := snd (clearTimeout h s)) in *.
    change (DeployInv (turn (debouncedBuildCallback queued cancel) s0)).
    destruct (callback_spec queued cancel s0 Hw)
      as (_ & Hq & _ & Htm2 & _).
    destruct (callback_facts queued cancel s0 Hw)
      as (_ & _ & delta & _ & _ & _ & _ & _ & Hcase).
    assert (Hpolls0 : polls s0 = 0%nat) by exact Hp0.
    unfold DeployInv. rewrite Hq, Htm2, Hcleared.
    destruct queued as [u|e].
    + destruct Hcase as (_ & -> & _). rewrite Hpolls0.
      repeat split; auto.
    + destruct Hcase as (-> & _). rewrite Hpolls0.
      repeat split; auto; lia.
  - destruct (polls s) as [|n] eqn:Hn; [discriminate |].
    intros [= <-].
    assert (n = 0%nat) by lia. subst n.
    set (s0 := set_polls 0 s).
    change (DeployInv (turn (debouncedBuildResume poll prov cancel net) s0)).
    destruct poll as [[]|e0].
    + destruct prov as [b|e].
      * destruct (resume_ok b cancel net s0 Hw Hs)
          as (d & _ & _ & _ & _ & _ & Hq & _).
        destruct (resume_ok_facts b cancel net s0 Hw)
          as (_ & _ & _ & Hpolls & _).
        unfold DeployInv. rewrite Hq, Hpolls. cbn.
        repeat split; auto; discriminate.
      * destruct (resume_failed (Ok tt) (Err e) cancel net s0)
          as (_ & Hq & _ & Htm & _); [right; eexists; reflexivity |].
        destruct (resume_failed_facts (Ok tt) (Err e) cancel net s0)
          as (_ & _ & Hpolls & _); [right; eexists; reflexivity |].
        unfold DeployInv. rewrite Hq, Hpolls, Htm. cbn.
        repeat split; auto; discriminate.
    + destruct (resume_failed (Err e0) prov cancel net s0)
        as (_ & Hq & _ & Htm & _); [left; discriminate |].
      destruct (resume_failed_facts (Err e0) prov cancel net s0)
        as (_ & _ & Hpolls & _); [left; discriminate |].
      unfold DeployInv. rewrite Hq, Hpolls, Htm. cbn.
      repeat split; auto; discriminate.
  - intros [= <-].
    destruct (stop_sync cancel s) as (_ & Hq & _ & Htm & _ & _ & Hpolls & _).
    unfold DeployInv. rewrite Hq, Htm, Hpolls. auto.
Qed.

Lemma count_le_app (f : Effect -> bool) (l d : list Effect) (n : nat) :
  (n <= count f l)%nat -> (n <= count f (l ++ d))%nat.
Proof. rewrite count_app. lia. Qed.

Lemma fileCalls_quiet (l d : list Effect) :
  fileCalls d = [] -> fileCalls (l ++ d) = fileCalls l.
Proof. intros H. rewrite fileCalls_app, H. apply app_nil_r. Qed.

Lemma step_Staged (t : Turn) (s s' : LocalDevManager) :
  Inv s -> Staged s -> step t s = Some s' -> Staged s'.
Proof.
  intros HI HS. unfold step.
  destruct (exited s) eqn:Hex; [intros [= <-]; exact HS |].
  destruct HI as (Ht & Hw & Hs & Hr).
  destruct HS as (S1 & S2 & S3).
  destruct t as [dt | ev fp net | queued cancel | poll prov cancel net | cancel].
  - destruct (_ && _); [| discriminate]. intros [= <-].
    unfold Staged. cbn. auto.
  - destruct (watching s) eqn:Hwatch; [| discriminate].
    destruct (negb _); [| discriminate]. cbn. intros [= <-].
    destruct (watch_frame net fp ev s Hr) as (Ho & Hwa & _ & Hb & _).
    destruct (watch_change net fp ev s Hr) as (d & Htr & Hd).
    unfold Staged. rewrite Ho, Hwa, Hb, Htr.
    destruct (preventUploads (options s)) eqn:Hprev.
    + split; [discriminate |].
      rewrite (watch_prevented net fp ev s Hprev) in Htr. cbn in Htr.
      apply app_inv_head in Htr. subst d.
      rewrite fileCalls_quiet by reflexivity.
      split; [exact S2 |]. intros H. apply count_le_app. auto.
    + specialize (S1 eq_refl eq_refl).
      split; [auto |]. split; [auto |]. intros H. apply count_le_app. auto.
  - destruct (due s) as [[h d]|] eqn:Hdue; [| discriminate].
    intros [= <-].
    set (s0 := snd (clearTimeout h s)).
    change (Staged (turn (debouncedBuildCallback queued cancel) s0)).
    destruct (callback_spec queued cancel s0 Hw) as (Ho & _).
    destruct (callback_facts queued cancel s0 Hw)
      as (Hb & Hwa & delta & Htr & Hcalls & _).
    unfold Staged. rewrite Ho, Hb, Htr, (fileCalls_quiet _ _ Hcalls).
    split; [intros H1 H2; exact (S1 H1 (Hwa H2)) |].
    split; [exact S2 |]. intros H. apply count_le_app. exact (S3 H).
  - destruct (polls s) as [|n] eqn:Hn; [discriminate |].
    intros [= <-].
    set (s0 := set_polls n s).
    change (Staged (turn (debouncedBuildResume poll prov cancel net) s0)).
    assert (Hfail : forall (H : poll <> Ok tt \/ exists e, prov = Err e),
               Staged (turn (debouncedBuildResume poll prov cancel net) s0)).
    { intros H.
      destruct (resume_failed poll prov cancel net s0 H) as (Ho & _).
      destruct (resume_failed_facts poll prov cancel net s0 H)
        as (Hb & Hwa & _ & delta & Htr & Hcalls & _).
      unfold Staged. rewrite Ho, Hb, Hwa, Htr, (fileCalls_quiet _ _ Hcalls).
      split; [exact S1 |]. split; [exact S2 |].
      intros H'. apply count_le_app. exact (S3 H'). }
    destruct poll as [[]|e0]; [| apply Hfail; left; discriminate].
    destruct prov as [b|e]; [| apply Hfail; right; eexists; reflexivity].
    destruct (resume_ok_facts b cancel net s0 Hw)
      as (Hb & _ & _ & _ & _ & delta & Htr & Hprov & _).
    unfold Staged. rewrite Hb, Htr, count_app, Hprov.
    repeat split; try discriminate. lia.
  - intros [= <-].
    destruct (stop_sync cancel s) as (Ho & _ & _ & _ & _ & _ & _ & Hb).
    destruct (stop_facts cancel s) as (Hwa & _ & delta & Htr & Hcalls & _).
    unfold Staged. rewrite Ho, Hb, Hwa, Htr, (fileCalls_quiet _ _ Hcalls).
    split; [discriminate |]. split; [exact S2 |].
    intros H. apply count_le_app. exact (S3 H).
Qed.

Lemma count_one_nonempty (f : Effect -> bool) (l : list Effect) :
  count f l = 1%nat -> l <> [].
Proof. intros H ->. discriminate. Qed.

Lemma exits_ExitOnce (s s' : LocalDevManager) (delta : list Effect) :
  exited s = None -> ExitOnce s ->
  trace s' = (trace s ++ delta)%list ->
  exits s s' delta -> ExitOnce s'.
Proof.
  unfold ExitOnce, exits. intros Hex H0 Htr He. rewrite Hex in H0.
  destruct He as [[He Hc] | (code & He & Hc & Hl)]; rewrite He.
  - rewrite Hex, Htr, count_app, H0, Hc. reflexivity.
  - rewrite Htr, count_app, H0, Hc. split; [reflexivity |].
    rewrite last_app_nonempty; [exact Hl |].
    exact (count_one_nonempty _ _ Hc).
Qed.

Lemma step_ExitOnce (t : Turn) (s s' : LocalDevManager) :
  Inv s -> ExitOnce s -> step t s = Some s' -> ExitOnce s'.
Proof.
  intros HI HE. unfold step.
  destruct (exited s) eqn:Hex; [intros [= <-]; exact HE |].
  destruct HI as (Ht & Hw & Hs & Hr).
  destruct t as [dt | ev fp net | queued cancel | poll prov cancel net | cancel].
  - destruct (_ && _); [| discriminate]. intros [= <-].
    unfold ExitOnce in *. cbn. exact HE.
  - destruct (_ && _); [| discriminate]. intros [= <-].
    destruct (watch_frame net fp ev s Hr) as (_ & _ & _ & _ & _ & Hexs).
    destruct (watch_change net fp ev s Hr) as (d & Htr & Hd).
    destruct (changeEffects_counts d Hd) as (_ & _ & _ & Hc & _).
    eapply exits_ExitOnce; [exact Hex | exact HE | exact Htr |].
    left. split; assumption.
  - destruct (due s) as [[h d]|] eqn:Hdue; [| discriminate].
    intros [= <-].
    set (s0 := snd (clearTimeout h s)).
    change (ExitOnce (turn (debouncedBuildCallback queued cancel) s0)).
    destruct (callback_facts queued cancel s0 Hw)
      as (_ & _ & delta & Htr & _ & _ & _ & _ & Hcase).
    eapply (exits_ExitOnce s0); [exact Hex | exact HE | exact Htr |].
    destruct queued as [u|e].
    + destruct Hcase as (He & _ & _ & Hc). left. split; assumption.
    + destruct Hcase as (_ & _ & Hcase).
      destruct (isSpecifiedError e ERROR_TYPES.MISSING_PROJECT_PROVISION).
      * destruct Hcase as (_ & He & Hc & _ & Hl). right. eexists.
        repeat split; eassumption.
      * destruct Hcase as (He & Hc). left. split; assumption.
  - destruct (polls s) as [|n] eqn:Hn; [discriminate |].
    intros [= <-].
    set (s0 := set_polls n s).
    change (ExitOnce (turn (debouncedBuildResume poll prov cancel net) s0)).
    assert (Hfail : forall (H : poll <> Ok tt \/ exists e, prov = Err e),
               ExitOnce (turn (debouncedBuildResume poll prov cancel net) s0)).
    { intros H.
      destruct (resume_failed_facts poll prov cancel net s0 H)
        as (_ & _ & _ & delta & Htr & _ & _ & _ & _ & He).
      eapply (exits_ExitOnce s0); [exact Hex | exact HE | exact Htr | exact He]. }
    destruct poll as [[]|e0]; [| apply Hfail; left; discriminate].
    destruct prov as [b|e]; [| apply Hfail; right; eexists; reflexivity].
    destruct (resume_ok_facts b cancel net s0 Hw)
      as (_ & _ & _ & _ & He & delta & Htr & _ & _ & _ & Hc).
    eapply (exits_ExitOnce s0); [exact Hex | exact HE | exact Htr |].
    left. split; assumption.
  - intros [= <-].
    destruct (stop_facts cancel s)
      as (_ & He & delta & Htr & _ & _ & _ & _ & _ & Hc & _ & Hl).
    eapply exits_ExitOnce; [exact Hex | exact HE | exact Htr |].
    right. eexists. repeat split; eassumption.
Qed.

Lemma step_Disciplined (t : Turn) (s s' : LocalDevManager) :
  Inv s -> Disciplined s -> step t s = Some s' -> Disciplined s'.
Proof.
  intros HI HD. unfold step.
  destruct (exited s) eqn:Hex; [intros [= <-]; exact HD |].
  destruct HI as (Ht & Hw & Hs & Hr).
  destruct HD as (D1 & D2).
  destruct t as [dt | ev fp net | queued cancel | poll prov cancel net | cancel].
  - destruct (_ && _); [| discriminate]. intros [= <-].
    unfold Disciplined. cbn. auto.
  - destruct (_ && _); [| discriminate]. intros [= <-].
    destruct (watch_frame net fp ev s Hr) as (_ & _ & _ & _ & Hpolls & _).
    destruct (watch_change net fp ev s Hr) as (d & Htr & Hd).
    destruct (changeEffects_counts d Hd) as (C1 & C2 & C3 & _).
    unfold Disciplined. rewrite Hpolls, Htr, !count_app, C1, C2, C3. lia.
  - destruct (due s) as [[h d]|] eqn:Hdue; [| discriminate].
    intros [= <-].
    set (s0 := snd (clearTimeout h s)).
    change (Disciplined (turn (debouncedBuildCallback queued cancel) s0)).
    destruct (callback_facts queued cancel s0 Hw)
      as (_ & _ & delta & Htr & _ & _ & Hprov & Hqb & Hcase).
    assert (E0 : trace s0 = trace s /\ polls s0 = polls s) by (split; reflexivity).
    destruct E0 as [Etr Epolls].
    unfold Disciplined. rewrite Htr, Etr, !count_app, Hprov, Hqb.
    destruct queued as [u|e].
    + destruct Hcase as (_ & -> & -> & _). rewrite Epolls. lia.
    + destruct Hcase as (-> & -> & _). rewrite Epolls. lia.
  - destruct (polls s) as [|n] eqn:Hn; [discriminate |].
    intros [= <-].
    set (s0 := set_polls n s).
    change (Disciplined (turn (debouncedBuildResume poll prov cancel net) s0)).
    assert (E0 : trace s0 = trace s /\ polls s0 = n) by (split; reflexivity).
    destruct E0 as [Etr Epolls].
    assert (Hfail : forall (H : poll <> Ok tt \/ exists e, prov = Err e),
               Disciplined (turn (debouncedBuildResume poll prov cancel net) s0)).
    { intros H.
      destruct (resume_failed_facts poll prov cancel net s0 H)
        as (_ & _ & Hpolls & delta & Htr & _ & Hprov & Hpoll & Hqb & _).
      unfold Disciplined.
      rewrite Hpolls, Htr, Etr, Epolls, !count_app, Hpoll, Hqb. lia. }
    destruct poll as [[]|e0]; [| apply Hfail; left; discriminate].
    destruct prov as [b|e]; [| apply Hfail; right; eexists; reflexivity].
    destruct (resume_ok_facts b cancel net s0 Hw)
      as (_ & _ & _ & Hpolls & _ & delta & Htr & Hprov & Hpoll & Hqb & _).
    unfold Disciplined.
    rewrite Hpolls, Htr, Etr, Epolls, !count_app, Hprov, Hpoll, Hqb. lia.
  - intros [= <-].
    destruct (stop_sync cancel s) as (_ & _ & _ & _ & _ & _ & Hpolls & _).
    destruct (stop_facts cancel s)
      as (_ & _ & delta & Htr & _ & _ & Hprov & Hpoll & Hqb & _).
    unfold Disciplined. rewrite Hpolls, Htr, !count_app, Hprov, Hpoll, Hqb. lia.
Qed.

Lemma boot_Good (o : Options) (prov : Result nat) (cancel : Result unit)
    (net : Net) :
  Good (boot o prov cancel net).
Proof.
  split; [apply boot_Inv |].
  run_handler.
  destruct (_ || _); cbn.
  { unfold Uniq, bufferedPaths, DeployInv, Staged, ExitOnce, Disciplined. cbn.
    repeat split; try constructor; try discriminate; try (cbv; lia);
      try (intros H; exfalso; apply H; reflexivity). }
  destruct (preventUploads o) eqn:Hprev; cbn; rewrite ?Hprev; cbn.
  { unfold Uniq, bufferedPaths, DeployInv, Staged, ExitOnce, Disciplined. cbn.
    rewrite Hprev.
    repeat split; try constructor; try discriminate; try (cbv; lia);
      try (intros H; exfalso; apply H; reflexivity). }
  destruct prov as [b|e]; cbn;
    [| destruct (isSpecifiedError e ERROR_TYPES.PROJECT_LOCKED); cbn;
       [destruct cancel as [[]|e']; cbn |]];
    unfold Uniq, bufferedPaths, DeployInv, Staged, ExitOnce, Disciplined; cbn;
    repeat split; try constructor; try discriminate; try (cbv; lia);
    try (intros H; exfalso; apply H; reflexivity).
Qed.

Lemma step_Good (t : Turn) (s s' : LocalDevManager) :
  Good s -> step t s = Some s' -> Good s'.
Proof.
  intros (HI & HU & HD & HS & HE & HP) Hstep.
  split; [eapply step_Inv; eassumption |].
  split; [eapply step_Uniq; eassumption |].
  split; [eapply step_DeployInv; eassumption |].
  split; [eapply step_Staged; eassumption |].
  split; [eapply step_ExitOnce; eassumption |].
  eapply step_Disciplined; eassumption.
Qed.

Lemma run_Good (ts : list Turn) :
  forall s s', Good s -> run ts s = Some s' -> Good s'.
Proof.
  induction ts as [|t ts IH]; cbn; intros s s' HG.
  - intros [= <-]. exact HG.
  - destruct (step t s) as [s1|] eqn:Hstep; [| discriminate].
    apply IH. eapply step_Good; eassumption.
Qed.

Lemma reachable_Good (s : LocalDevManager) : reachable s -> Good s.
Proof.
  intros (o & prov & cancel & net & ts & Hrun).
  eapply run_Good; [apply boot_Good | exact Hrun].
Qed.

(** ** Further properties of the manager *)


(** X2.  [stop()] always closes the watcher and issues no file call.
    Without a staged build (no id, or id [0]) it calls no
    [cancelStagedBuild] and exits with the success code whatever the
    remote would answer; with a staged build it calls [cancelStagedBuild]
    exactly once and exits with the success code when the cancel
    succeeds. *)
Theorem stop_cancels_only_a_staged_build :
  forall (s : LocalDevManager) (cancel : Result unit),
    let s' := turn (stop cancel) s in
    watching s' = false
    /\ fileCalls (trace s') = fileCalls (trace s)
    /\ (truthy (currentStagedBuildId s) = false ->
        exited s' = Some EXIT_CODES.SUCCESS
        /\ count isCancel (trace s') = count isCancel (trace s))
    /\ (truthy (currentStagedBuildId s) = true ->
        count isCancel (trace s') = S (count isCancel (trace s))
        /\ (cancel = Ok tt -> exited s' = Some EXIT_CODES.SUCCESS)).
Proof.
  intros s cancel. cbn zeta.
  destruct (stop_facts cancel s)
    as (Hwa & Hex & delta & Htr & Hcalls & _ & _ & _ & _ & _ & Hcancel & _).
  split; [exact Hwa |].
  split; [rewrite Htr; apply fileCalls_quiet, Hcalls |].
  unfold stopCode in Hex. rewrite Htr, count_app, Hcancel. split.
  - intros Hb. rewrite Hb in *. split; [exact Hex | lia].
  - intros Hb. rewrite Hb in *. split; [lia |].
    intros ->. exact Hex.
Qed.

(** X3.  When [queueBuild] fails with [MISSING_PROJECT_PROVISION] the
    timer callback shuts the manager down: the watcher is closed, the
    process exits with the code [stop()] computes, the staged build (if
    any) is cancelled once, and no poll is started. *)
Theorem missing_provision_shuts_down :
  forall (s : LocalDevManager) (cancel : Result unit),
    waiting (uploadQueue s) = [] ->
    let s' :=
      turn (debouncedBuildCallback
              (Err (ApiError ERROR_TYPES.MISSING_PROJECT_PROVISION)) cancel) s in
    watching s' = false
    /\ exited s' = Some (stopCode (currentStagedBuildId s) cancel)
    /\ polls s' = polls s
    /\ count isPoll (trace s') = count isPoll (trace s)
    /\ count isQueueBuild (trace s') = S (count isQueueBuild (trace s))
    /\ count isCancel (trace s')
       = (count isCancel (trace s)
          + if truthy (currentStagedBuildId s) then 1 else 0)%nat
    /\ fileCalls (trace s') = fileCalls (trace s).
Proof.
  intros s cancel Hw. cbn zeta.
  destruct (callback_facts
              (Err (ApiError ERROR_TYPES.MISSING_PROJECT_PROVISION)) cancel s Hw)
    as (_ & _ & delta & Htr & Hcalls & _ & _ & Hqb & Hpolls & Hpoll & Hcase).
  cbn in Hcase. destruct Hcase as (Hwa & Hex & _ & Hcancel & _).
  rewrite Htr, !count_app, Hpoll, Hqb, Hcancel, (fileCalls_quiet _ _ Hcalls).
  repeat split; try assumption; lia.
Qed.

(** X4.  On every run the standby buffer holds at most one entry per
    path, every entry passed the Ignore/Filter Policy and none carries
    the [supported] mark; and the buffer is empty whenever the queue
    runs. *)
Theorem standby_buffer_is_well_formed :
  forall s : LocalDevManager,
    reachable s ->
    NoDup (bufferedPaths s)
    /\ Forall (fun c => isEligible (info c) = true /\ supported c = false)
         (standbyChanges s)
    /\ (isPaused (uploadQueue s) = false -> standbyChanges s = []).
Proof.
  intros s Hr.
  destruct (reachable_Good s Hr) as ((_ & _ & Hs & Hrun) & (Hnd & Hel) & _).
  split; [exact Hnd |]. split; [| exact Hrun].
  rewrite Forall_forall in *. intros c Hin. split; auto.
Qed.

(** X5.  On every run at most one timer callback waits for the deploy
    poll; while one does the queue is paused; and while the queue is
    paused no debounce timer is outstanding. *)
Theorem one_deploy_at_a_time :
  forall s : LocalDevManager,
    reachable s ->
    (polls s <= 1)%nat
    /\ (polls s = 1%nat -> isPaused (uploadQueue s) = true)
    /\ (isPaused (uploadQueue s) = true -> timers s = []).
Proof.
  intros s Hr. destruct (reachable_Good s Hr) as (_ & _ & HD & _). exact HD.
Qed.

(** X6.  On every run a file call is issued only with a staged build:
    once an upload or delete call has been made a build id is set and
    [provisionBuild] has been called, and a manager that watches with
    uploads allowed has a build id. *)
Theorem uploads_need_a_staged_build :
  forall s : LocalDevManager,
    reachable s ->
    (fileCalls (trace s) <> [] ->
     (exists b, currentStagedBuildId s = Some b)
     /\ (1 <= count isProvision (trace s))%nat)
    /\ (preventUploads (options s) = false -> watching s = true ->
        exists b, currentStagedBuildId s = Some b).
Proof.
  intros s Hr.
  destruct (reachable_Good s Hr) as (_ & _ & _ & (S1 & S2 & S3) & _).
  assert (Hsome : currentStagedBuildId s <> None ->
                  exists b, currentStagedBuildId s = Some b).
  { destruct (currentStagedBuildId s) as [b|]; [eauto | congruence]. }
  split.
  - intros H. split; [apply Hsome, S2, H | apply S3, S2, H].
  - intros H1 H2. apply Hsome, S1; assumption.
Qed.


(** X8.  On every run [provisionBuild] is called at most once at the
    start and once per completed poll of a deploy, and every poll follows
    a [queueBuild] of its own. *)
Theorem provisioning_follows_polls :
  forall s : LocalDevManager,
    reachable s ->
    (count isProvision (trace s) + polls s <= 1 + count isPoll (trace s))%nat
    /\ (count isProvision (trace s) <= 1 + count isPoll (trace s))%nat
    /\ (count isPoll (trace s) <= count isQueueBuild (trace s))%nat.
Proof.
  intros s Hr.
  destruct (reachable_Good s Hr) as (_ & _ & _ & _ & _ & (D1 & D2)).
  repeat split; try assumption. lia.
Qed.




(** ** Changes are sent in the order they are reported *)



(** X21.  A failure thrown while the endpoint is being called is the
    one failure [sendChanges] catches: the status line and the one client
    call are followed by the debug log of the error, the promise is
    fulfilled, and nothing but the trace has changed. *)
Theorem sendChanges_catches_a_synchronous_throw :
  forall (s : LocalDevManager) (c : ChangeInfo) (e : error),
    sendChanges (throwingNet e) c s
    = (Done Fulfilled,
       set_trace
         (trace s
            ++ [SpinniesAdd (filePath c)
                  ("Uploading change for " ++ remotePath c);
                fileCallOf (accountId s) (projectName s) c;
                LoggerDebug e])%list
         s).
Proof.
  intros s c e. unfold fileCallOf. run_method.
  destruct (event c); cbn; rewrite <- !app_assoc; reflexivity.
Qed.

End Properties.

(** * The claims on the sample project *)






(** C5, witness: a run of the sample project with uploads prevented. *)
Lemma preventUploads_only_reports_witness :
  let o := sampleOptions true in
  let ts := [Watch WATCH_EVENTS.add aHtml okNet;
             Tick 5000;
             Watch WATCH_EVENTS.unlink bCss okNet;
             Stop (Ok tt)] in
  exists s,
    (preventUploads o = true
     /\ @run sampleCollaborators ts
          (@boot sampleCollaborators o (Ok 7%nat) (Ok tt) okNet) = Some s)
    /\ count isProvision (trace s) = 0%nat
    /\ submissions (trace s) = []
    /\ fileCalls (trace s) = []
    /\ standbyChanges s = [].
Proof.
  intros o ts. eexists.
  assert (Hrun : @run sampleCollaborators ts
                   (@boot sampleCollaborators o (Ok 7%nat) (Ok tt) okNet)
                 = Some _) by (vm_compute; reflexivity).
  split; [split; [reflexivity | exact Hrun] |].
  destruct (@preventUploads_only_reports sampleCollaborators o (Ok 7%nat)
              (Ok tt) okNet ts _ eq_refl Hrun) as (H1 & H2 & H3 & H4 & _).
  split; [exact H1 |]. split; [exact H2 |]. split; [exact H3 | exact H4].
Defined.


(** C7, at the failing input.  The sample project is running and the
    watcher reports that [a.exe] was added, a path whose extension is not
    in the allow-list: the change is submitted to the upload queue and
    uploaded.  The same event reported while the queue is paused is
    rejected by [addChangeToStandbyQueue]: the buffer does not grow. *)
Theorem disallowed_extension_is_uploaded_while_running :
  let c := {| event := WATCH_EVENTS.add; filePath := aExe;
              remotePath := "a.exe" |} in
  sampleAllowedExtension aExe = false
  /\ isPaused (uploadQueue (sampleBoot false)) = false
  /\ (exists s',
        @step sampleCollaborators (Watch WATCH_EVENTS.add aExe okNet)
          (sampleBoot false) = Some s'
        /\ submissions (trace s') = [SendTask c]
        /\ fileCalls (trace s') = [UploadFileToBuild 42 "proj" aExe "a.exe"])
  /\ (exists s s',
        @run sampleCollaborators toDeploying (sampleBoot false) = Some s
        /\ isPaused (uploadQueue s) = true
        /\ @step sampleCollaborators (Watch WATCH_EVENTS.add aExe okNet) s
           = Some s'
        /\ standbyChanges s' = standbyChanges s
        /\ submissions (trace s') = submissions (trace s)).
Proof.
  intros c. split; [vm_compute; reflexivity |].
  split; [vm_compute; reflexivity |]. split.
  - eexists. split; [vm_compute; reflexivity |].
    split; vm_compute; reflexivity.
  - do 2 eexists. split; [vm_compute; reflexivity |].
    split; [vm_compute; reflexivity |].
    split; [vm_compute; reflexivity |].
    split; vm_compute; reflexivity.
Qed.

(** C8, witness: stopping the sample project while build 7 is staged. *)
Lemma stop_exit_code_reflects_cancel_witness :
  let s := sampleBoot false in
  truthy (currentStagedBuildId s) = true
  /\ exited (turn (stop (Err (ApiError ERROR_TYPES.BUILD_NOT_IN_PROGRESS))) s)
     = Some EXIT_CODES.SUCCESS
  /\ exited (turn (stop (Err (OtherError "503"))) s) = Some EXIT_CODES.ERROR.
Proof.
  intros s.
  assert (Hb : truthy (currentStagedBuildId s) = true)
    by (vm_compute; reflexivity).
  split; [exact Hb |].
  destruct (stop_exit_code_reflects_cancel s Hb) as [[H1 _] H2].
  split; [exact H1 |].
  exact (proj1 (H2 (OtherError "503") eq_refl)).
Defined.


(** C10, witness: the sample project with one change buffered during a
    deploy. *)
Lemma notifyServers_never_supports_witness :
  let s := sampleBuffering in
  @reachable sampleCollaborators s
  /\ List.length (standbyChanges s) = 1%nat
  /\ Forall (fun c => supported c = false) (standbyChanges s)
  /\ hasAnyUnsupportedStandbyChanges s = (Done true, s).
Proof.
  intros s.
  assert (Hr : @reachable sampleCollaborators s).
  { exists (sampleOptions false), (Ok 7%nat), (Ok tt), okNet,
      (toDeploying ++ [Watch WATCH_EVENTS.change aHtml okNet])%list.
    vm_compute. reflexivity. }
  split; [exact Hr |]. split; [vm_compute; reflexivity |].
  pose proof (proj2 (@notifyServers_never_supports sampleCollaborators) s Hr)
    as H.
  vm_compute in H |- *. exact H.
Defined.

(** * The sample project on whole runs *)


Lemma stop_cancels_only_a_staged_build_witness :
  let s := sampleBoot false in
  let s' := turn (stop (Ok tt)) s in
  truthy (currentStagedBuildId s) = true
  /\ count isCancel (trace s') = S (count isCancel (trace s))
  /\ exited s' = Some EXIT_CODES.SUCCESS
  /\ watching s' = false.
Proof.
  intros s s'.
  assert (Ht : truthy (currentStagedBuildId s) = true)
    by (vm_compute; reflexivity).
  pose proof (stop_cancels_only_a_staged_build s (Ok tt)) as H.
  cbv zeta in H. destruct H as (H1 & _ & _ & H4).
  destruct (H4 Ht) as [H5 H6].
  split; [exact Ht |].
  split; [exact H5 |].
  split; [exact (H6 eq_refl) | exact H1].
Defined.

Lemma missing_provision_shuts_down_witness :
  let s := sampleBoot false in
  let s' :=
    turn (debouncedBuildCallback
            (Err (ApiError ERROR_TYPES.MISSING_PROJECT_PROVISION)) (Ok tt)) s in
  waiting (uploadQueue s) = []
  /\ watching s' = false
  /\ exited s' = Some EXIT_CODES.SUCCESS
  /\ count isPoll (trace s') = count isPoll (trace s)
  /\ count isCancel (trace s') = S (count isCancel (trace s)).
Proof.
  intros s s'.
  assert (Hw : waiting (uploadQueue s) = []) by (vm_compute; reflexivity).
  pose proof (missing_provision_shuts_down s (Ok tt) Hw) as H.
  cbv zeta in H. destruct H as (H1 & H2 & _ & H4 & _ & H6 & _).
  split; [exact Hw |].
  split; [exact H1 |].
  vm_compute in H2, H6 |- *.
  split; [exact H2 |].
  split; [reflexivity | exact H6].
Defined.

Lemma standby_buffer_is_well_formed_witness :
  @reachable sampleCollaborators sampleBuffering
  /\ bufferedPaths sampleBuffering = [aHtml]
  /\ NoDup (bufferedPaths sampleBuffering)
  /\ Forall (fun c => @isEligible sampleCollaborators (info c) = true
                      /\ supported c = false)
       (standbyChanges sampleBuffering).
Proof.
  assert (Hr : @reachable sampleCollaborators sampleBuffering).
  { exists (sampleOptions false), (Ok 7%nat), (Ok tt), okNet,
      (toDeploying ++ [Watch WATCH_EVENTS.change aHtml okNet])%list.
    vm_compute. reflexivity. }
  destruct (@standby_buffer_is_well_formed sampleCollaborators
              sampleBuffering Hr) as (H1 & H2 & _).
  split; [exact Hr |].
  split; [vm_compute; reflexivity |].
  split; [exact H1 | exact H2].
Defined.

Lemma one_deploy_at_a_time_witness :
  @reachable sampleCollaborators sampleBuffering
  /\ polls sampleBuffering = 1%nat
  /\ isPaused (uploadQueue sampleBuffering) = true
  /\ timers sampleBuffering = [].
Proof.
  assert (Hr : @reachable sampleCollaborators sampleBuffering).
  { exists (sampleOptions false), (Ok 7%nat), (Ok tt), okNet,
      (toDeploying ++ [Watch WATCH_EVENTS.change aHtml okNet])%list.
    vm_compute. reflexivity. }
  destruct (@one_deploy_at_a_time sampleCollaborators sampleBuffering Hr)
    as (_ & H2 & H3).
  assert (Hp : polls sampleBuffering = 1%nat) by (vm_compute; reflexivity).
  split; [exact Hr |].
  split; [exact Hp |].
  split; [exact (H2 Hp) | exact (H3 (H2 Hp))].
Defined.

Lemma uploads_need_a_staged_build_witness :
  @reachable sampleCollaborators sampleBuffering
  /\ fileCalls (trace sampleBuffering) <> []
  /\ (exists b, currentStagedBuildId sampleBuffering = Some b)
  /\ (1 <= count isProvision (trace sampleBuffering))%nat.
Proof.
  assert (Hr : @reachable sampleCollaborators sampleBuffering).
  { exists (sampleOptions false), (Ok 7%nat), (Ok tt), okNet,
      (toDeploying ++ [Watch WATCH_EVENTS.change aHtml okNet])%list.
    vm_compute. reflexivity. }
  assert (Hf : fileCalls (trace sampleBuffering) <> [])
    by (vm_compute; discriminate).
  destruct (@uploads_need_a_staged_build sampleCollaborators
              sampleBuffering Hr) as [H1 _].
  destruct (H1 Hf) as [H2 H3].
  split; [exact Hr |].
  split; [exact Hf |].
  split; [exact H2 | exact H3].
Defined.


Lemma provisioning_follows_polls_witness :
  @reachable sampleCollaborators sampleBuffering
  /\ (count isProvision (trace sampleBuffering) + polls sampleBuffering
      <= 1 + count isPoll (trace sampleBuffering))%nat
  /\ (count isPoll (trace sampleBuffering)
      <= count isQueueBuild (trace sampleBuffering))%nat.
Proof.
  assert (Hr : @reachable sampleCollaborators sampleBuffering).
  { exists (sampleOptions false), (Ok 7%nat), (Ok tt), okNet,
      (toDeploying ++ [Watch WATCH_EVENTS.change aHtml okNet])%list.
    vm_compute. reflexivity. }
  destruct (@provisioning_follows_polls sampleCollaborators
              sampleBuffering Hr) as (H1 & _ & H3).
  split; [exact Hr |].
  split; [exact H1 | exact H3].
Defined.


(** * The other commands: properties *)

(** ** Strings *)

Lemma endsWith_unfold :
  forall suffix s,
    endsWith suffix s
    = if String.eqb s suffix then true
      else match s with
           | EmptyString => false
           | String _ s' => endsWith suffix s'
           end.
Proof. intros suffix s. destruct s; reflexivity. Qed.

Lemma endsWith_append :
  forall p s, endsWith s (p ++ s) = true.
Proof.
  induction p as [|a p IH]; intros s.
  - change (EmptyString ++ s) with s.
    rewrite endsWith_unfold, String.eqb_refl. reflexivity.
  - change (String a p ++ s) with (String a (p ++ s)).
    rewrite endsWith_unfold.
    destruct (String.eqb (String a (p ++ s)) s); [reflexivity | apply IH].
Qed.

Lemma length_append :
  forall a b, String.length (a ++ b) = (String.length a + String.length b)%nat.
Proof.
  induction a as [|c a IH]; intros b; cbn; [reflexivity |].
  rewrite IH. reflexivity.
Qed.

Lemma append_cancel_l :
  forall a x y, a ++ x = a ++ y -> x = y.
Proof.
  induction a as [|c a IH]; intros x y H; cbn in H; [exact H |].
  injection H as H. apply IH. exact H.
Qed.

Lemma append_suffix_only :
  forall a b, a ++ b = b -> a = EmptyString.
Proof.
  intros a b H. apply (f_equal String.length) in H.
  rewrite length_append in H.
  destruct a; [reflexivity | cbn in H; lia].
Qed.

(** ** [urls.js] *)

Lemma env_dec :
  forall (QA : string) (env : option string), env = Some QA \/ env <> Some QA.
Proof.
  intros QA [e|]; [| right; discriminate].
  destruct (string_dec e QA) as [->|H]; [left; reflexivity |].
  right. intros [= E]. contradiction.
Qed.

Lemma getEnvUrlString_other :
  forall QA env, env <> Some QA -> Urls.getEnvUrlString QA env = EmptyString.
Proof.
  intros QA [e|] H; cbn; [| reflexivity].
  destruct (String.eqb_spec e QA) as [->|]; [contradiction | reflexivity].
Qed.

Lemma getEnvUrlString_qa :
  forall QA, Urls.getEnvUrlString QA (Some QA) = QA.
Proof. intros QA. cbn. rewrite String.eqb_refl. reflexivity. Qed.

(** X11.  Every environment other than the QA one, a missing one
    included, gets the production origins. *)
Theorem other_environments_get_production_origins :
  forall (QA : string) (env : option string),
    env <> Some QA ->
    Urls.getHubSpotWebsiteOrigin QA env = "https://app.hubspot.com"
    /\ Urls.getHubSpotApiOrigin QA env false = "https://api.hubapi.com"
    /\ Urls.getHubSpotApiOrigin QA env true = "https://local.hubapi.com".
Proof.
  intros QA env H.
  unfold Urls.getHubSpotWebsiteOrigin, Urls.getHubSpotApiOrigin.
  rewrite (getEnvUrlString_other QA env H).
  repeat split; reflexivity.
Qed.

(** X12.  With a QA constant that is not the empty string, two API
    origins are the same exactly when they agree on the local-host flag
    and on whether the environment is the QA one; so the QA origin is never
    the production origin and the local origin never the remote one. *)
Theorem api_origins_tell_environments_apart :
  forall (QA : string) (e1 e2 : option string) (l1 l2 : bool),
    QA <> EmptyString ->
    Urls.getHubSpotApiOrigin QA e1 l1 = Urls.getHubSpotApiOrigin QA e2 l2
    <-> l1 = l2 /\ (e1 = Some QA <-> e2 = Some QA).
Proof.
  intros QA e1 e2 l1 l2 HQ.
  assert (Hsame :
    forall e e', (e = Some QA <-> e' = Some QA) ->
                 Urls.getEnvUrlString QA e = Urls.getEnvUrlString QA e').
  { intros e e' Hiff.
    destruct (env_dec QA e) as [He|He].
    - rewrite He, (proj1 Hiff He). reflexivity.
    - assert (He' : e' <> Some QA) by (intros H; apply He, Hiff, H).
      rewrite !getEnvUrlString_other by assumption. reflexivity. }
  assert (Hdiff :
    forall e e', Urls.getEnvUrlString QA e ++ ".com"
                 = Urls.getEnvUrlString QA e' ++ ".com" ->
                 e = Some QA -> e' = Some QA).
  { intros e e' Heq ->.
    destruct (env_dec QA e') as [He'|He']; [exact He' |].
    rewrite getEnvUrlString_qa, (getEnvUrlString_other QA e' He') in Heq.
    apply append_suffix_only in Heq. contradiction. }
  unfold Urls.getHubSpotApiOrigin. split.
  - intros H.
    destruct l1, l2; cbn in H; try discriminate;
      (split; [reflexivity |]);
      injection H as H;
      (split; [apply (Hdiff e1 e2) | apply (Hdiff e2 e1)]);
      solve [exact H | symmetry; exact H].
  - intros [-> Hiff]. rewrite (Hsame e1 e2 Hiff). reflexivity.
Qed.
(** ** [createModule] *)

(** X13.  The folder name always ends in [.module]; a name that already
    does is kept as it is, so naming is idempotent. *)
Theorem folderName_ends_with_module :
  forall name : string,
    endsWith ".module" (CreateModule.folderName name) = true
    /\ CreateModule.folderName (CreateModule.folderName name)
       = CreateModule.folderName name.
Proof.
  intros name.
  assert (H : endsWith ".module" (CreateModule.folderName name) = true).
  { unfold CreateModule.folderName.
    destruct (endsWith ".module" name) eqn:Hends; [exact Hends |].
    apply endsWith_append. }
  split; [exact H |].
  unfold CreateModule.folderName at 1. rewrite H. reflexivity.
Qed.

Section CreateModuleProperties.

Import CreateModule.

Context `{E : Env}.

Lemma filter_nil_of :
  forall (A : Type) (f : A -> bool) (l : list A),
    (forall x, In x l -> f x = false) -> filter f l = [].
Proof.
  intros A f l. induction l as [|a l IH]; intros H; [reflexivity |].
  cbn. rewrite (H a (or_introl eq_refl)). apply IH.
  intros x Hx. apply H. right. exact Hx.
Qed.

Lemma moduleFileFilter_effects :
  forall d src dst,
    (fst (moduleFileFilter d src dst) = false
     /\ basename src = "meta.json"
     /\ snd (moduleFileFilter d src dst) = [WriteJSONSync dst (metaData d) 2])
    \/ (basename src <> "meta.json"
        /\ snd (moduleFileFilter d src dst) = []).
Proof.
  intros d src dst. unfold moduleFileFilter.
  destruct (String.eqb_spec (basename src) "meta.json") as [Hm|Hm].
  - left. split; [reflexivity | split; [exact Hm | reflexivity]].
  - right. split; [exact Hm |].
    destruct (String.eqb (basename src) "module.js"
              || String.eqb (basename src) "module.css"); reflexivity.
Qed.

Lemma moduleFileFilter_keeps :
  forall d src dst,
    fst (moduleFileFilter d src dst) = true
    <-> basename src <> "meta.json"
        /\ (includes "EMAIL" (contentTypes d) = true ->
            basename src <> "module.js" /\ basename src <> "module.css").
Proof.
  intros d src dst. unfold moduleFileFilter.
  destruct (String.eqb_spec (basename src) "meta.json") as [Hm|Hm].
  - cbn. split; [discriminate | intros [H _]; contradiction].
  - destruct (String.eqb_spec (basename src) "module.js") as [Hj|Hj];
      destruct (String.eqb_spec (basename src) "module.css") as [Hc|Hc];
      destruct (includes "EMAIL" (contentTypes d)); cbn;
        split; try discriminate; try (intros _; split; [exact Hm |]);
          try (intros _; split; assumption);
          try (intros H; discriminate H);
          try (intros [_ H]; destruct (H eq_refl); contradiction).
Qed.

Lemma copyEntries_Copy :
  forall d s t entries src dst,
    In (Copy src dst) (copyEntries (moduleFileFilter d) s t entries)
    <-> exists n,
          In n entries /\ src = join s n /\ dst = join t n
          /\ fst (moduleFileFilter d (join s n) (join t n)) = true.
Proof.
  intros d s t entries src dst.
  induction entries as [|n rest IH]; cbn [copyEntries].
  - split; [intros [] | intros (n & [] & _)].
  - rewrite !in_app_iff, IH. split.
    + intros [H|[H|(m & Hm & H)]].
      * destruct (moduleFileFilter_effects d (join s n) (join t n))
          as [(_ & _ & Hs)|[_ Hs]]; rewrite Hs in H.
        -- destruct H as [H|[]]; discriminate H.
        -- destruct H.
      * destruct (fst (moduleFileFilter d (join s n) (join t n))) eqn:Hk;
          [| destruct H].
        destruct H as [[= <- <-]|[]].
        exists n. split; [left; reflexivity |].
        split; [reflexivity | split; [reflexivity | exact Hk]].
      * exists m. split; [right; exact Hm | exact H].
    + intros (m & [<-|Hm] & -> & -> & Hk).
      * right. left. rewrite Hk. left. reflexivity.
      * right. right. exists m.
        split; [exact Hm |].
        split; [reflexivity | split; [reflexivity | exact Hk]].
Qed.

Lemma copyEntries_Write :
  forall d s t entries dst m sp,
    In (WriteJSONSync dst m sp) (copyEntries (moduleFileFilter d) s t entries)
    <-> m = metaData d /\ sp = 2%nat
        /\ exists n,
             In n entries /\ dst = join t n
             /\ basename (join s n) = "meta.json".
Proof.
  intros d s t entries dst m sp.
  induction entries as [|n rest IH]; cbn [copyEntries].
  - split; [intros [] | intros (_ & _ & n & [] & _)].
  - rewrite !in_app_iff, IH. split.
    + intros [H|[H|(Hm & Hsp & k & Hk & H)]].
      * destruct (moduleFileFilter_effects d (join s n) (join t n))
          as [(_ & Hb & Hs)|[_ Hs]]; rewrite Hs in H.
        -- destruct H as [[= <- <- <-]|[]].
           split; [reflexivity | split; [reflexivity |]].
           exists n. split; [left; reflexivity |].
           split; [reflexivity | exact Hb].
        -- destruct H.
      * destruct (fst (moduleFileFilter d (join s n) (join t n)));
          [destruct H as [H|[]]; discriminate H | destruct H].
      * split; [exact Hm | split; [exact Hsp |]].
        exists k. split; [right; exact Hk | exact H].
    + intros (-> & -> & k & [<-|Hk] & -> & Hb).
      * left.
        destruct (moduleFileFilter_effects d (join s n) (join t n))
          as [(_ & _ & Hs)|[Hn _]]; [| contradiction].
        rewrite Hs. left. reflexivity.
      * right. right.
        split; [reflexivity | split; [reflexivity |]].
        exists k. split; [exact Hk |]. split; [reflexivity | exact Hb].
Qed.

Lemma copyEntries_kinds :
  forall d s t entries e,
    In e (copyEntries (moduleFileFilter d) s t entries) ->
    isCopy e = true \/ isWrite e = true.
Proof.
  intros d s t entries e.
  induction entries as [|n rest IH]; cbn [copyEntries]; [intros [] |].
  rewrite !in_app_iff. intros [H|[H|H]].
  - destruct (moduleFileFilter_effects d (join s n) (join t n))
      as [(_ & _ & Hs)|[_ Hs]]; rewrite Hs in H.
    + destruct H as [<-|[]]. right. reflexivity.
    + destruct H.
  - destruct (fst (moduleFileFilter d (join s n) (join t n)));
      [| destruct H].
    destruct H as [<-|[]]. left. reflexivity.
  - apply IH. exact H.
Qed.

(** What [copySync] does once the filter lets the directory through. *)
Lemma copySync_kept :
  forall d s t,
    fst (moduleFileFilter d s t) = true ->
    copySync (moduleFileFilter d) s t
    = copyEntries (moduleFileFilter d) s t assetEntries.
Proof.
  intros d s t Hk. unfold copySync. rewrite Hk.
  destruct (moduleFileFilter_effects d s t) as [(Hf & _)|[_ Hs]].
  - rewrite Hk in Hf. discriminate.
  - rewrite Hs. reflexivity.
Qed.

Lemma copySync_kinds :
  forall d s t e,
    In e (copySync (moduleFileFilter d) s t) ->
    isCopy e = true \/ isWrite e = true.
Proof.
  intros d s t e. unfold copySync. rewrite in_app_iff. intros [H|H].
  - destruct (moduleFileFilter_effects d s t) as [(_ & _ & Hs)|[_ Hs]];
      rewrite Hs in H.
    + destruct H as [<-|[]]. right. reflexivity.
    + destruct H.
  - destruct (fst (moduleFileFilter d s t)); [| destruct H].
    apply (copyEntries_kinds d s t assetEntries). exact H.
Qed.

Lemma createModule_free :
  forall d name dest,
    existsSync (join dest (folderName name)) = false ->
    createModule d name dest
    = ([LoggerLog ("Creating " ++ join dest (folderName name));
        Mkdirp (join dest (folderName name));
        LoggerLog ("Creating module at " ++ join dest (folderName name))]
         ++ copySync (moduleFileFilter d) assetPath
              (join dest (folderName name)))%list.
Proof.
  intros d name dest H. unfold createModule. rewrite H. reflexivity.
Qed.

(** X14.  [createModule] never touches a destination that exists: it
    logs one error and does nothing else.  On a free destination it logs no
    error and asks for exactly one directory, the destination itself. *)
Theorem createModule_creates_only_a_free_path :
  forall (d : ModuleDefinition) (name dest : string),
    let destPath := join dest (folderName name) in
    let effs := createModule d name dest in
    (existsSync destPath = true ->
     effs = [LoggerError ("The " ++ destPath ++ " path already exists")])
    /\ (existsSync destPath = false ->
        filter isMkdirp effs = [Mkdirp destPath]
        /\ forall text, ~ In (LoggerError text) effs).
Proof.
  intros d name dest destPath effs. subst effs destPath. split.
  - intros H. unfold createModule. rewrite H. reflexivity.
  - intros H. rewrite (createModule_free d name dest H). split.
    + rewrite filter_app. cbn [filter isMkdirp app].
      rewrite filter_nil_of; [reflexivity |].
      intros e He. destruct (copySync_kinds _ _ _ _ He) as [Hk|Hk];
        destruct e; cbn in Hk |- *; congruence.
    + intros text. rewrite in_app_iff. intros [Hin|Hin].
      * destruct Hin as [Hin|[Hin|[Hin|[]]]]; discriminate Hin.
      * destruct (copySync_kinds _ _ _ _ Hin) as [Hk|Hk]; discriminate Hk.
Qed.

(** X15.  On a free destination, with a sample directory the filter lets
    through, a file is copied exactly when it is an entry of the sample
    directory that is not [meta.json] and, for a module with the [EMAIL]
    content type, neither [module.js] nor [module.css]; it is copied to
    the entry of the same name under the destination. *)
Theorem createModule_copies_what_the_filter_keeps :
  forall (d : ModuleDefinition) (name dest src dst : string),
    let destPath := join dest (folderName name) in
    existsSync destPath = false ->
    fst (moduleFileFilter d assetPath destPath) = true ->
    In (Copy src dst) (createModule d name dest)
    <-> exists n,
          In n assetEntries
          /\ src = join assetPath n /\ dst = join destPath n
          /\ basename src <> "meta.json"
          /\ (includes "EMAIL" (contentTypes d) = true ->
              basename src <> "module.js" /\ basename src <> "module.css").
Proof.
  intros d name dest src dst destPath Hfree Hroot. subst destPath.
  rewrite (createModule_free d name dest Hfree), in_app_iff.
  rewrite (copySync_kept _ _ _ Hroot), copyEntries_Copy. split.
  - intros [Hin|(n & Hn & Hs & Hd & Hk)].
    + destruct Hin as [Hin|[Hin|[Hin|[]]]]; discriminate Hin.
    + exists n. split; [exact Hn |]. split; [exact Hs |]. split; [exact Hd |].
      rewrite Hs. exact (proj1 (moduleFileFilter_keeps d _ _) Hk).
  - intros (n & Hn & Hs & Hd & Hk). right. exists n.
    split; [exact Hn |]. split; [exact Hs |]. split; [exact Hd |].
    apply (proj2 (moduleFileFilter_keeps d (join assetPath n)
                    (join (join dest (folderName name)) n))).
    rewrite <- Hs. exact Hk.
Qed.

(** X16.  On a free destination, with a sample directory the filter lets
    through, [meta.json] is written, not copied: a JSON file is written
    exactly for the entries named [meta.json], under the destination, with
    two spaces of indentation and the metadata generated from the module
    definition. *)
Theorem createModule_writes_generated_meta :
  forall (d : ModuleDefinition) (name dest dst : string)
         (m : MetaData) (spaces : nat),
    let destPath := join dest (folderName name) in
    existsSync destPath = false ->
    fst (moduleFileFilter d assetPath destPath) = true ->
    In (WriteJSONSync dst m spaces) (createModule d name dest)
    <-> m = metaData d /\ spaces = 2%nat
        /\ exists n,
             In n assetEntries /\ dst = join destPath n
             /\ basename (join assetPath n) = "meta.json".
Proof.
  intros d name dest dst m spaces destPath Hfree Hroot. subst destPath.
  rewrite (createModule_free d name dest Hfree), in_app_iff.
  rewrite (copySync_kept _ _ _ Hroot), copyEntries_Write. split.
  - intros [Hin|H]; [| exact H].
    destruct Hin as [Hin|[Hin|[Hin|[]]]]; discriminate Hin.
  - intros H. right. exact H.
Qed.

End CreateModuleProperties.

Lemma createModule_creates_only_a_free_path_witness :
  let old := @CreateModule.createModule sampleEnv emailModule "Old" "/out" in
  let new := @CreateModule.createModule sampleEnv emailModule "New" "/out" in
  (@CreateModule.existsSync sampleEnv
     (@CreateModule.join sampleEnv "/out" (CreateModule.folderName "Old"))
   = true
   /\ @CreateModule.existsSync sampleEnv
        (@CreateModule.join sampleEnv "/out" (CreateModule.folderName "New"))
      = false)
  /\ old
     = [CreateModule.LoggerError "The /out/Old.module path already exists"]
  /\ filter CreateModule.isMkdirp new = [CreateModule.Mkdirp "/out/New.module"].
Proof.
  intros old new.
  assert (Ho : @CreateModule.existsSync sampleEnv
                 (@CreateModule.join sampleEnv "/out"
                    (CreateModule.folderName "Old")) = true)
    by (vm_compute; reflexivity).
  assert (Hn : @CreateModule.existsSync sampleEnv
                 (@CreateModule.join sampleEnv "/out"
                    (CreateModule.folderName "New")) = false)
    by (vm_compute; reflexivity).
  pose proof (proj1 (@createModule_creates_only_a_free_path sampleEnv
                       emailModule "Old" "/out") Ho) as H1.
  pose proof (proj1 (proj2 (@createModule_creates_only_a_free_path sampleEnv
                              emailModule "New" "/out") Hn)) as H2.
  split; [split; [exact Ho | exact Hn] |].
  vm_compute in H1, H2 |- *. split; [exact H1 | exact H2].
Defined.

Lemma createModule_copies_what_the_filter_keeps_witness :
  let effs := @CreateModule.createModule sampleEnv emailModule "New" "/out" in
  (@CreateModule.existsSync sampleEnv "/out/New.module" = false
   /\ fst (@CreateModule.moduleFileFilter sampleEnv emailModule
             "/cli/defaults/Sample.module" "/out/New.module") = true)
  /\ In (CreateModule.Copy "/cli/defaults/Sample.module/module.html"
           "/out/New.module/module.html") effs
  /\ ~ In (CreateModule.Copy "/cli/defaults/Sample.module/module.js"
             "/out/New.module/module.js") effs.
Proof.
  intros effs.
  assert (Hf : @CreateModule.existsSync sampleEnv "/out/New.module" = false)
    by (vm_compute; reflexivity).
  assert (Hr : fst (@CreateModule.moduleFileFilter sampleEnv emailModule
                      "/cli/defaults/Sample.module" "/out/New.module") = true)
    by (vm_compute; reflexivity).
  split; [split; [exact Hf | exact Hr] |].
  split.
  - apply (proj2 (@createModule_copies_what_the_filter_keeps sampleEnv
                    emailModule "New" "/out" _ _ Hf Hr)).
    exists "module.html".
    split; [vm_compute; tauto |].
    split; [reflexivity |]. split; [reflexivity |].
    split; [vm_compute; discriminate |].
    intros _. split; vm_compute; discriminate.
  - intros Hin.
    apply (proj1 (@createModule_copies_what_the_filter_keeps sampleEnv
                    emailModule "New" "/out" _ _ Hf Hr)) in Hin.
    destruct Hin as (n & _ & Hs & _ & _ & Hk).
    rewrite Hs in Hk.
    destruct (Hk eq_refl) as [Hj _]. apply Hj.
    rewrite <- Hs. vm_compute. reflexivity.
Defined.

Lemma createModule_writes_generated_meta_witness :
  let effs := @CreateModule.createModule sampleEnv emailModule "New" "/out" in
  (@CreateModule.existsSync sampleEnv "/out/New.module" = false
   /\ fst (@CreateModule.moduleFileFilter sampleEnv emailModule
             "/cli/defaults/Sample.module" "/out/New.module") = true)
  /\ In (CreateModule.WriteJSONSync "/out/New.module/meta.json"
           (CreateModule.metaData emailModule) 2) effs.
Proof.
  intros effs.
  assert (Hf : @CreateModule.existsSync sampleEnv "/out/New.module" = false)
    by (vm_compute; reflexivity).
  assert (Hr : fst (@CreateModule.moduleFileFilter sampleEnv emailModule
                      "/cli/defaults/Sample.module" "/out/New.module") = true)
    by (vm_compute; reflexivity).
  split; [split; [exact Hf | exact Hr] |].
  apply (proj2 (@createModule_writes_generated_meta sampleEnv
                  emailModule "New" "/out" _ _ _ Hf Hr)).
  split; [reflexivity |]. split; [reflexivity |].
  exists "meta.json".
  split; [vm_compute; tauto |].
  split; [reflexivity | vm_compute; reflexivity].
Defined.
(** ** The [secrets add] handler *)

Section AddSecretProperties.

Import AddSecret.

(** The four ways through the handler. *)

Lemma handler_invalid :
  forall name acct a e,
    validated a = Err e ->
    handler name acct a = (Rejected e, [LoadAndValidateOptions]).
Proof.
  intros name acct [va pa aa ra] e H. cbn in H. subst va. reflexivity.
Qed.

Lemma handler_prompt_failed :
  forall name acct a u e,
    validated a = Ok u -> prompted a = Err e ->
    handler name acct a
    = (match reported a with Ok _ => Fulfilled | Err e' => Rejected e' end,
       [LoadAndValidateOptions;
        TrackCommandUsage "secrets-add" acct;
        SecretValuePrompt;
        LoggerError (notAddedMessage name);
        LogServerlessFunctionApiErrorInstance acct e "add secret" acct]).
Proof.
  intros name acct [va pa aa ra] u e Hv Hp. cbn in Hv, Hp. subst va pa.
  destruct ra; reflexivity.
Qed.

Lemma handler_add_failed :
  forall name acct a u v e,
    validated a = Ok u -> prompted a = Ok v -> added a = Err e ->
    handler name acct a
    = (match reported a with Ok _ => Fulfilled | Err e' => Rejected e' end,
       [LoadAndValidateOptions;
        TrackCommandUsage "secrets-add" acct;
        SecretValuePrompt;
        AddSecret acct name v;
        LoggerError (notAddedMessage name);
        LogServerlessFunctionApiErrorInstance acct e "add secret" acct]).
Proof.
  intros name acct [va pa aa ra] u v e Hv Hp Ha. cbn in Hv, Hp, Ha.
  subst va pa aa. destruct ra; reflexivity.
Qed.

Lemma handler_added :
  forall name acct a u v u',
    validated a = Ok u -> prompted a = Ok v -> added a = Ok u' ->
    handler name acct a
    = (Fulfilled,
       [LoadAndValidateOptions;
        TrackCommandUsage "secrets-add" acct;
        SecretValuePrompt;
        AddSecret acct name v;
        LoggerLog (addedMessage name acct)]).
Proof.
  intros name acct [va pa aa ra] u v u' Hv Hp Ha. cbn in Hv, Hp, Ha.
  subst va pa aa. reflexivity.
Qed.

Ltac handler_cases name acct a :=
  destruct (validated a) as [u|ev] eqn:Hv;
  [ destruct (prompted a) as [v|ep] eqn:Hp;
    [ destruct (added a) as [u'|ea] eqn:Ha;
      [ rewrite (handler_added name acct a u v u' Hv Hp Ha)
      | rewrite (handler_add_failed name acct a u v ea Hv Hp Ha) ]
    | rewrite (handler_prompt_failed name acct a u ep Hv Hp) ]
  | rewrite (handler_invalid name acct a ev Hv) ];
  cbn [fst snd In].

(** X17.  The handler logs that the secret was added exactly when option
    validation, the prompt and the secrets API all succeed; it logs
    nothing else through [logger.log], and when it logs the success its
    promise is fulfilled and no error has been logged. *)
Theorem secret_success_is_logged_iff_added :
  forall (name : string) (acct : nat) (a : Answers),
    (In (LoggerLog (addedMessage name acct)) (snd (handler name acct a))
     <-> (exists u, validated a = Ok u)
         /\ (exists v, prompted a = Ok v)
         /\ (exists u, added a = Ok u))
    /\ (forall text,
          In (LoggerLog text) (snd (handler name acct a)) ->
          text = addedMessage name acct
          /\ fst (handler name acct a) = Fulfilled
          /\ forall text', ~ In (LoggerError text') (snd (handler name acct a))).
Proof.
  intros name acct a. handler_cases name acct a.
  - split.
    + split; [intros _; repeat split; eexists; reflexivity | intros _; tauto].
    + intros text H.
      destruct H as [H|[H|[H|[H|[H|[]]]]]]; try discriminate H.
      injection H as <-. split; [reflexivity | split; [reflexivity |]].
      intros text' H'.
      destruct H' as [H'|[H'|[H'|[H'|[H'|[]]]]]]; discriminate H'.
  - split.
    + split.
      * intros H.
        destruct H as [H|[H|[H|[H|[H|[H|[]]]]]]]; discriminate H.
      * intros (_ & _ & u' & H). discriminate H.
    + intros text H.
      destruct H as [H|[H|[H|[H|[H|[H|[]]]]]]]; discriminate H.
  - split.
    + split.
      * intros H. destruct H as [H|[H|[H|[H|[H|[]]]]]]; discriminate H.
      * intros (_ & (v & H) & _). discriminate H.
    + intros text H.
      destruct H as [H|[H|[H|[H|[H|[]]]]]]; discriminate H.
  - split.
    + split.
      * intros [H|[]]. discriminate H.
      * intros ((u & H) & _). discriminate H.
    + intros text [H|[]]. discriminate H.
Qed.

(** X18.  A failure of the prompt or of the secrets API is caught: the
    handler ends by logging that the secret was not added and handing the
    same error to the API error reporter, with the account id and the
    request name [add secret]; nothing was logged or reported before; its
    promise settles as the reporter does; and when the prompt fails the
    secrets API is never called. *)
Theorem secret_failures_are_caught_and_reported :
  forall (name : string) (acct : nat) (a : Answers) (e : error),
    (exists u, validated a = Ok u) ->
    prompted a = Err e \/ ((exists v, prompted a = Ok v) /\ added a = Err e) ->
    (exists pre,
       snd (handler name acct a)
       = (pre ++ [LoggerError (notAddedMessage name);
                  LogServerlessFunctionApiErrorInstance
                    acct e "add secret" acct])%list
       /\ forall x, In x pre ->
                    isLog x = false /\ isError x = false
                    /\ isReport x = false)
    /\ fst (handler name acct a)
       = match reported a with
         | Ok _ => Fulfilled
         | Err e' => Rejected e'
         end
    /\ (prompted a = Err e ->
        forall x, In x (snd (handler name acct a)) -> isAddSecret x = false).
Proof.
  intros name acct a e [u0 Hv0] Hfail. handler_cases name acct a.
  - destruct Hfail as [H|[_ H]]; discriminate H.
  - destruct Hfail as [H|[_ H]]; [discriminate H |]. injection H as <-.
    split; [| split; [reflexivity | intros H; discriminate H]].
    exists [LoadAndValidateOptions; TrackCommandUsage "secrets-add" acct;
            SecretValuePrompt; AddSecret acct name v].
    split; [reflexivity |].
    intros x Hx. destruct Hx as [<-|[<-|[<-|[<-|[]]]]]; repeat split.
  - destruct Hfail as [H|[[v H] _]]; [| discriminate H]. injection H as <-.
    split; [| split; [reflexivity |]].
    + exists [LoadAndValidateOptions; TrackCommandUsage "secrets-add" acct;
              SecretValuePrompt].
      split; [reflexivity |].
      intros x Hx. destruct Hx as [<-|[<-|[<-|[]]]]; repeat split.
    + intros _ x Hx.
      destruct Hx as [<-|[<-|[<-|[<-|[<-|[]]]]]]; reflexivity.
  - discriminate Hv0.
Qed.

(** X19.  The handler's promise rejects in two cases only: option
    validation fails, which happens outside the [try] and rejects with
    that error before usage is tracked or anything is prompted; or the
    error reporter itself fails after a caught failure.  Usage is tracked
    exactly when validation passes. *)
Theorem secret_handler_rejects_only_outside_the_try :
  forall (name : string) (acct : nat) (a : Answers) (e : error),
    (fst (handler name acct a) = Rejected e
     <-> validated a = Err e
         \/ ((exists u, validated a = Ok u)
             /\ reported a = Err e
             /\ ((exists e', prompted a = Err e')
                 \/ (exists e', added a = Err e'))))
    /\ (In (TrackCommandUsage "secrets-add" acct) (snd (handler name acct a))
        <-> exists u, validated a = Ok u)
    /\ (In SecretValuePrompt (snd (handler name acct a))
        <-> exists u, validated a = Ok u).
Proof.
  intros name acct a e. handler_cases name acct a.
  - split; [| split; split; eauto 6].
    split; [discriminate |].
    intros [H|(_ & _ & [[e' H]|[e' H]])]; discriminate H.
  - split; [| split; split; eauto 6].
    split.
    + intros H. right. split; [eauto |].
      split; [| right; eauto].
      destruct (reported a); [discriminate H | congruence].
    + intros [H|(_ & H & _)]; [discriminate H |]. rewrite H. reflexivity.
  - split; [| split; split; eauto 6].
    split.
    + intros H. right. split; [eauto |].
      split; [| left; eauto].
      destruct (reported a); [discriminate H | congruence].
    + intros [H|(_ & H & _)]; [discriminate H |]. rewrite H. reflexivity.
  - split; [| split].
    + split.
      * intros [= <-]. left. reflexivity.
      * intros [[= <-]|((u & H) & _)]; [reflexivity | discriminate H].
    + split; [intros [H|[]]; discriminate H | intros [u H]; discriminate H].
    + split; [intros [H|[]]; discriminate H | intros [u H]; discriminate H].
Qed.

(** X20.  The secrets API is called exactly when validation and the
    prompt succeed, and then with the account id, the secret name of the
    options and the value the prompt returned. *)
Theorem secret_is_sent_as_prompted :
  forall (name name' : string) (acct acct' : nat) (a : Answers)
         (value : string),
    In (AddSecret acct' name' value) (snd (handler name acct a))
    <-> acct' = acct /\ name' = name
        /\ (exists u, validated a = Ok u)
        /\ prompted a = Ok value.
Proof.
  intros name name' acct acct' a value. handler_cases name acct a.
  - split.
    + intros H. destruct H as [H|[H|[H|[H|[H|[]]]]]]; try discriminate H.
      injection H as <- <- <-. eauto.
    + intros (-> & -> & _ & [= ->]). tauto.
  - split.
    + intros H. destruct H as [H|[H|[H|[H|[H|[H|[]]]]]]]; try discriminate H.
      injection H as <- <- <-. eauto.
    + intros (-> & -> & _ & [= ->]). tauto.
  - split.
    + intros H. destruct H as [H|[H|[H|[H|[H|[]]]]]]; discriminate H.
    + intros (_ & _ & _ & H). discriminate H.
  - split.
    + intros [H|[]]. discriminate H.
    + intros (_ & _ & [u H] & _). discriminate H.
Qed.

End AddSecretProperties.

Lemma secret_failures_are_caught_and_reported_witness :
  let a := sampleAnswers (Err (OtherError "closed")) (Ok tt) in
  ((exists u, AddSecret.validated a = Ok u)
   /\ (AddSecret.prompted a = Err (OtherError "closed")
       \/ ((exists v, AddSecret.prompted a = Ok v)
           /\ AddSecret.added a = Err (OtherError "closed"))))
  /\ fst (AddSecret.handler "KEY" 42 a) = Fulfilled
  /\ (forall x, In x (snd (AddSecret.handler "KEY" 42 a)) ->
                AddSecret.isAddSecret x = false).
Proof.
  intros a.
  assert (Hv : exists u, AddSecret.validated a = Ok u)
    by (exists tt; reflexivity).
  assert (Hp : AddSecret.prompted a = Err (OtherError "closed"))
    by reflexivity.
  destruct (secret_failures_are_caught_and_reported "KEY" 42 a
              (OtherError "closed") Hv (or_introl Hp)) as (_ & H2 & H3).
  split; [split; [exact Hv | left; exact Hp] |].
  split; [exact H2 | exact (H3 Hp)].
Defined.

Lemma other_environments_get_production_origins_witness :
  Some "prod" <> Some "qa"
  /\ Urls.getHubSpotWebsiteOrigin "qa" (Some "prod") = "https://app.hubspot.com"
  /\ Urls.getHubSpotApiOrigin "qa" (Some "prod") false
     = "https://api.hubapi.com"
  /\ Urls.getHubSpotApiOrigin "qa" (Some "prod") true
     = "https://local.hubapi.com".
Proof.
  assert (H : Some "prod" <> Some "qa") by discriminate.
  split; [exact H |].
  exact (other_environments_get_production_origins "qa" (Some "prod") H).
Defined.

Lemma api_origins_tell_environments_apart_witness :
  "qa" <> EmptyString
  /\ Urls.getHubSpotApiOrigin "qa" (Some "qa") false
     = "https://api.hubapiqa.com"
  /\ Urls.getHubSpotApiOrigin "qa" (Some "qa") false
     <> Urls.getHubSpotApiOrigin "qa" None false.
Proof.
  assert (H : "qa" <> EmptyString) by discriminate.
  split; [exact H |].
  split; [reflexivity |].
  intros Heq.
  destruct (proj1 (api_origins_tell_environments_apart "qa" (Some "qa") None
                     false false H) Heq) as [_ [Hq _]].
  discriminate (Hq eq_refl).
Defined.
